(** * pyCroscopy: the distribution script [setup.py]

    The repository's only program is its [setup.py].  It computes the
    directory of the script, reads [README.md] from it, and calls
    [setuptools.setup] with a fixed list of keyword arguments, one of which
    ([packages]) is computed by [setuptools.find_packages].

    The script is embedded as a computation in a small reader/state/error
    monad: the reader part is the environment the interpreter runs in (the
    value of [__file__], the working directory, the files that can be opened
    and the directory tree below the working directory), the state part is the
    sequence of observable actions, the error part is the Python exception
    that ends the run.  The script declares itself a Python 2.7 program (its
    classifiers), so a [str] is a sequence of bytes and [f.read()] returns the
    bytes of the file undecoded.

    The library functions the script calls ([os.path], [codecs.open],
    [setuptools.find_packages]) are embedded next to it, each from its
    library's definition. *)

From Stdlib Require Import String Ascii List Bool Arith Lia.
Import ListNotations.
Local Open Scope list_scope.
Local Open Scope string_scope.

(* ------------------------------------------------------------------ *)
(** ** Python [str] operations used by the libraries *)

Module Str.

Definition sep : ascii := "/"%char.

(** [s.startswith(c)] for a one-character [c]. *)
Definition startswith_char (c : ascii) (s : string) : bool :=
  match s with
  | String d _ => Ascii.eqb d c
  | EmptyString => false
  end.

(** [s.endswith(c)] for a one-character [c]. *)
Fixpoint endswith_char (c : ascii) (s : string) : bool :=
  match s with
  | EmptyString => false
  | String d EmptyString => Ascii.eqb d c
  | String _ r => endswith_char c r
  end.

(** [c in s]. *)
Fixpoint contains_char (c : ascii) (s : string) : bool :=
  match s with
  | EmptyString => false
  | String d r => Ascii.eqb d c || contains_char c r
  end.

(** [c * n]. *)
Fixpoint repeat_char (c : ascii) (n : nat) : string :=
  match n with
  | O => EmptyString
  | S k => String c (repeat_char c k)
  end.

(** [s == c * len(s)]. *)
Fixpoint all_char (c : ascii) (s : string) : bool :=
  match s with
  | EmptyString => true
  | String d r => Ascii.eqb d c && all_char c r
  end.

(** [s.rstrip(c)]: [s] without its trailing run of [c]. *)
Fixpoint rstrip (c : ascii) (s : string) : string :=
  match s with
  | EmptyString => EmptyString
  | String d r =>
      match rstrip c r with
      | EmptyString => if Ascii.eqb d c then EmptyString else String d EmptyString
      | r' => String d r'
      end
  end.

(** [s[:s.rfind(c) + 1]]: the prefix of [s] up to and including the last
    occurrence of [c], empty when [c] does not occur ([rfind] is then -1). *)
Fixpoint upto_last (c : ascii) (s : string) : string :=
  match s with
  | EmptyString => EmptyString
  | String d r =>
      match upto_last c r with
      | EmptyString => if Ascii.eqb d c then String d EmptyString else EmptyString
      | h => String d h
      end
  end.

(** [s[s.rfind(c) + 1:]]: what follows the last occurrence of [c], the
    whole of [s] when [c] does not occur. *)
Fixpoint after_last (c : ascii) (s : string) : string :=
  match s with
  | EmptyString => EmptyString
  | String d r => if Ascii.eqb d c || contains_char c r then after_last c r else s
  end.

(** [s.split(c)]. *)
Fixpoint split (c : ascii) (s : string) : list string :=
  match s with
  | EmptyString => [EmptyString]
  | String d r =>
      if Ascii.eqb d c then EmptyString :: split c r
      else match split c r with
           | h :: t => String d h :: t
           | [] => [String d EmptyString]
           end
  end.

(** [c.join(l)]. *)
Fixpoint join (c : ascii) (l : list string) : string :=
  match l with
  | [] => EmptyString
  | [x] => x
  | x :: t => x ++ String c (join c t)
  end.

(** Iterating over a [str] yields its characters as one-character
    strings. *)
Fixpoint chars (s : string) : list string :=
  match s with
  | EmptyString => []
  | String d r => String d EmptyString :: chars r
  end.

Definition is_empty (s : string) : bool :=
  match s with EmptyString => true | _ => false end.

End Str.

(* ------------------------------------------------------------------ *)
(** ** [os.path] on POSIX ([posixpath]) *)

Module path.

Import Str.

Definition isabs (s : string) : bool := startswith_char sep s.

(** [join(a, b)]: [b] replaces [a] when it is absolute, otherwise it is
    appended, with a separator unless [a] is empty or ends with one. *)
Definition join (a b : string) : string :=
  if startswith_char sep b then b
  else if is_empty a || endswith_char sep a then a ++ b
  else a ++ String sep b.

Definition basename (p : string) : string := after_last sep p.

Definition dirname (p : string) : string :=
  let head := upto_last sep p in
  if negb (is_empty head) && negb (all_char sep head)
  then rstrip sep head
  else head.

(** The number of initial slashes [normpath] keeps: POSIX allows one or
    two, three or more are one. *)
Definition initial_slashes (p : string) : nat :=
  if prefix "/" p then
    if prefix "//" p && negb (prefix "///" p) then 2 else 1
  else 0.

(** One turn of [normpath]'s loop over the components. *)
Definition norm_step (slashes : nat) (new_comps : list string) (comp : string)
  : list string :=
  if (comp =? "") || (comp =? ".") then new_comps
  else if negb (comp =? "..")
          || (Nat.eqb slashes 0 && match new_comps with [] => true | _ => false end)
          || (match new_comps with [] => false | _ => true end
              && (last new_comps "" =? ".."))
       then (new_comps ++ [comp])%list
       else match new_comps with
            | [] => new_comps
            | _ => removelast new_comps
            end.

Definition norm_comps (p : string) : list string :=
  fold_left (norm_step (initial_slashes p)) (split sep p) [].

Definition or_dot (p : string) : string :=
  if is_empty p then "." else p.

Definition normpath (p : string) : string :=
  if is_empty p then "."
  else
    let slashes := initial_slashes p in
    let comps := norm_comps p in
    let p' := Str.join sep comps in
    let p' := if Nat.eqb slashes 0 then p' else repeat_char sep slashes ++ p' in
    or_dot p'.

(** [abspath(p)], with the result of [os.getcwd()] as [cwd]. *)
Definition abspath (cwd p : string) : string :=
  normpath (if isabs p then p else join cwd p).

End path.

(* ------------------------------------------------------------------ *)
(** ** [fnmatch.fnmatchcase] *)

Module fnmatch.

(** Shell-style matching of a whole name against a pattern: [*] matches
    any run of characters, [?] any one character, every other character
    itself.  Bracket expressions are not embedded: no pattern of this
    program has one. *)
Fixpoint fnmatchcase_pat (pat : string) : string -> bool :=
  match pat with
  | EmptyString => fun name => Str.is_empty name
  | String "*" pat' =>
      fix star (name : string) : bool :=
        fnmatchcase_pat pat' name
        || match name with
           | EmptyString => false
           | String _ name' => star name'
           end
  | String "?" pat' =>
      fun name =>
        match name with
        | EmptyString => false
        | String _ name' => fnmatchcase_pat pat' name'
        end
  | String c pat' =>
      fun name =>
        match name with
        | EmptyString => false
        | String d name' => Ascii.eqb c d && fnmatchcase_pat pat' name'
        end
  end.

Definition fnmatchcase (name pat : string) : bool := fnmatchcase_pat pat name.

End fnmatch.

(* ------------------------------------------------------------------ *)
(** ** [setuptools.find_packages] *)

Module setuptools.

(** What [find_packages] sees of the file system below [where]. *)
#[warnings="-register-all"] Inductive node : Type :=
| File (name : string)
| Dir (name : string) (entries : list node).

(** An argument that Python iterates over: a [str] yields its characters,
    a list or tuple its elements. *)
Inductive iterable : Type :=
| PyStr (s : string)
| PyList (l : list string).

Definition iter (x : iterable) : list string :=
  match x with
  | PyStr s => Str.chars s
  | PyList l => l
  end.

Definition is_init_py (n : node) : bool :=
  match n with
  | File f => f =? "__init__.py"
  | Dir _ _ => false
  end.

(** [os.path.isfile(os.path.join(path, '__init__.py'))] *)
Definition looks_like_package (entries : list node) : bool :=
  existsb is_init_py entries.

(** Whether the walk keeps a directory entry: its name has no dot and it
    holds an [__init__.py]. *)
Definition is_package (n : node) : bool :=
  match n with
  | File _ => false
  | Dir d entries => negb (Str.contains_char "." d) && looks_like_package entries
  end.

(** The package an entry of a visited directory is, named by the dotted
    path from [where]; nothing for a file or a directory the walk drops. *)
Definition package_name (prefix : string) (n : node) : list string :=
  match n with
  | File _ => []
  | Dir d _ => if is_package n then [prefix ++ d] else []
  end.

(** The packages strictly below one entry, in the order of the top-down
    walk ([os.walk]): when a directory is visited, the packages among its
    entries are listed, all of them before any of their subpackages; then
    each of these is visited in turn.  Files, and directories that are not
    packages, are not visited. *)
Fixpoint packages_below (prefix : string) (n : node) : list string :=
  match n with
  | File _ => []
  | Dir d entries =>
      if Str.contains_char "." d || negb (looks_like_package entries) then []
      else (flat_map (package_name (prefix ++ d ++ ".")) entries
            ++ flat_map (packages_below (prefix ++ d ++ ".")) entries)%list
  end.

(** The walk from [where]: its packages first, then what is below each. *)
Definition all_packages (where_ : list node) : list string :=
  (flat_map (package_name "") where_ ++ flat_map (packages_below "") where_)%list.

(** [_build_filter] of a list of patterns: a name passes when it matches
    one of them. *)
Definition build_filter (patterns : list string) (name : string) : bool :=
  existsb (fnmatch.fnmatchcase name) patterns.

(** [find_packages(where, exclude, include)]: the packages below [where]
    that match [include] and do not match [exclude]; [ez_setup] and
    [__pycache__] directories are always excluded. *)
Definition find_packages (where_ : list node) (exclude include : iterable)
  : list string :=
  let includes := build_filter (iter include) in
  let excludes := build_filter ("ez_setup" :: "*__pycache__" :: iter exclude) in
  filter (fun p => negb (excludes p)) (filter includes (all_packages where_)).

End setuptools.

(* ------------------------------------------------------------------ *)
(** ** [pkg_resources.yield_lines] *)

Module pkg_resources.

Definition is_space (c : ascii) : bool :=
  match c with
  | " "%char | "009"%char | "010"%char | "011"%char | "012"%char | "013"%char => true
  | _ => false
  end.

Definition is_newline (c : ascii) : bool :=
  match c with
  | "010"%char | "013"%char => true
  | _ => false
  end.

Fixpoint lstrip (s : string) : string :=
  match s with
  | String c r => if is_space c then lstrip r else s
  | EmptyString => EmptyString
  end.

Fixpoint rstrip (s : string) : string :=
  match s with
  | EmptyString => EmptyString
  | String c r =>
      match rstrip r with
      | EmptyString => if is_space c then EmptyString else String c EmptyString
      | r' => String c r'
      end
  end.

Definition strip (s : string) : string := rstrip (lstrip s).

(** [s.splitlines()]: the lines of [s], without their ends. *)
Fixpoint splitlines_from (cur : string) (s : string) : list string :=
  match s with
  | EmptyString => if Str.is_empty cur then [] else [cur]
  | String c r =>
      if is_newline c then
        cur :: match c, r with
               | "013"%char, String "010" r' => splitlines_from "" r'
               | _, _ => splitlines_from "" r
               end
      else splitlines_from (cur ++ String c "") r
  end.

Definition splitlines (s : string) : list string := splitlines_from "" s.

(** The lines of one string that are neither blank nor a comment. *)
Definition yield_lines_str (s : string) : list string :=
  filter (fun l => negb (Str.is_empty l) && negb (Str.startswith_char "#" l))
         (map strip (splitlines s)).

(** [yield_lines(strs)] for a sequence of strings: what the requirement
    parser and the reader of [dependency_links.txt] are given. *)
Definition yield_lines (strs : list string) : list string :=
  flat_map yield_lines_str strs.

End pkg_resources.

(* ------------------------------------------------------------------ *)
(** ** The script *)

(** The keyword arguments of the call of [setup]. *)
Record kwargs : Type := mk_kwargs {
  name : string;
  version : string;
  description : string;
  long_description : string;
  classifiers : list string;
  packages : list string;
  url : string;
  license : string;
  author : string;
  author_email : string;
  dependency : string;
  dependency_links : list string;
  install_requires : list string;
  test_suite : string;
  tests_require : string;
  include_package_data : bool
}.

(** What there is at a path when the script opens it. *)
Inductive file_state : Type :=
| Missing                      (* no such file *)
| Denied                       (* no permission to read it *)
| IsDirectory                  (* a directory *)
| Unreadable                   (* opens, but reading it fails *)
| Regular (content : string).  (* a file with these bytes *)

Inductive errno : Type := ENOENT | EACCES | EISDIR | EIO.

(** The exceptions of the run: [open] and [read] raise [IOError], with the
    name of the file when it comes from [open]. *)
Inductive exn : Type :=
| IOError (code : errno) (filename : option string).

(** The environment of one run. *)
Record env : Type := mk_env {
  script_file : string;                 (* [__file__] *)
  getcwd : string;                      (* [os.getcwd()] *)
  files : string -> file_state;         (* what [open] finds at a path *)
  listing : list setuptools.node        (* the tree below ['.'] *)
}.

(** The observable actions of a run, in order. *)
Inductive event : Type :=
| Opened (p : string)
| Closed (p : string)
| FoundPackages (pk : list string)
| SetupCalled (kw : kwargs).

(** An open file object. *)
Record file : Type := mk_file {
  file_name : string;
  file_data : option string
}.

(** Computations of the script: they read the environment, extend the trace
    and end with a value or an exception. *)
Definition M (A : Type) : Type := env -> list event -> list event * (exn + A).

Definition ret {A} (a : A) : M A := fun _ tr => (tr, inr a).

Definition bind {A B} (m : M A) (k : A -> M B) : M B :=
  fun e tr =>
    match m e tr with
    | (tr1, inl x) => (tr1, inl x)
    | (tr1, inr a) => k a e tr1
    end.

Definition raise {A} (x : exn) : M A := fun _ tr => (tr, inl x).

Definition emit (ev : event) : M unit := fun _ tr => ((tr ++ [ev])%list, inr tt).

Definition ask : M env := fun e tr => (tr, inr e).

Notation "x <- m ;; k" := (bind m (fun x => k))
  (at level 61, m at next level, right associativity).
Notation "m ;;; k" := (bind m (fun _ => k))
  (at level 61, right associativity).

(** [codecs.open(p)]: without an encoding it is the built-in [open(p, 'r')]. *)
Definition open (p : string) : M file :=
  e <- ask ;;
  match files e p with
  | Missing => raise (IOError ENOENT (Some p))
  | Denied => raise (IOError EACCES (Some p))
  | IsDirectory => raise (IOError EISDIR (Some p))
  | Unreadable => emit (Opened p) ;;; ret (mk_file p None)
  | Regular s => emit (Opened p) ;;; ret (mk_file p (Some s))
  end.

(** [f.read()] *)
Definition read (f : file) : M string :=
  match file_data f with
  | Some s => ret s
  | None => raise (IOError EIO None)
  end.

Definition close (f : file) : M unit := emit (Closed (file_name f)).

(** [with mgr as f: body]: the file is closed when the body ends, also
    when it ends with an exception, which then goes on. *)
Definition with_as {A} (mgr : M file) (body : file -> M A) : M A :=
  fun e tr =>
    match mgr e tr with
    | (tr1, inl x) => (tr1, inl x)
    | (tr1, inr f) =>
        match body f e tr1 with
        | (tr2, r) => (fst (close f e tr2), r)
        end
    end.

(** [path.abspath(p)] in the working directory of the run. *)
Definition abspath (p : string) : M string :=
  e <- ask ;; ret (path.abspath (getcwd e) p).

(** [find_packages(exclude=x)]: [where] is ['.'], [include] is [('*',)]. *)
Definition find_packages (exclude : setuptools.iterable) : M (list string) :=
  e <- ask ;;
  let pk := setuptools.find_packages (listing e) exclude (setuptools.PyList ["*"]) in
  emit (FoundPackages pk) ;;; ret pk.

(** The call of [setup] with the keyword arguments [kw]: the packaging tool
    takes the manifest. *)
Definition setup (kw : kwargs) : M unit := emit (SetupCalled kw).

(** The keyword arguments as the script writes them. *)
Definition manifest (long_description : string) (packages : list string) : kwargs :=
  {| name := "pyCroscopy";
     version := "0.0a1";
     description := "A suite of Python libraries for high performance scientific computing of microscopy data.";
     long_description := long_description;
     classifiers :=
       [ "Development Status :: 2 - Pre-Alpha";
         "Environment :: Console";
         "Intended Audience :: Science/Research";
         "License :: OSI Approved :: MIT License";
         "Natural Language :: English";
         "Operating System :: OS Independent";
         "Programming Language :: Cython";
         "Programming Language :: Python :: 2.7";
         "Programming Language :: Python :: Implementation :: CPython";
         "Topic :: Scientific/Engineering :: Chemistry";
         "Topic :: Scientific / Engineering :: Information Analysis";
         "Topic :: Scientific/Engineering :: Physics" ];
     packages := packages;
     url := "http://github.com/pycroscopy/pyCroscopy";
     license := "MIT";
     author := "S. Somnath, C. Ryan, N. Laanait";
     author_email := "pycroscopy@gmail.com";
     dependency := "";
     dependency_links := [""];
     install_requires := [""];
     test_suite := "nose.collector";
     tests_require := "Nose";
     include_package_data := true |}.

(** The whole of [setup.py]. *)
Definition script : M unit :=
  e <- ask ;;
  here <- abspath (path.dirname (script_file e)) ;;
  long_description <- with_as (open (path.join here "README.md")) (fun f => read f) ;;
  packages <- find_packages (setuptools.PyStr "tests") ;;
  setup (manifest long_description packages).

(** A manifest with another [long_description], another [packages]. *)
Definition with_long_description (s : string) (kw : kwargs) : kwargs :=
  mk_kwargs (name kw) (version kw) (description kw) s (classifiers kw) (packages kw)
            (url kw) (license kw) (author kw) (author_email kw) (dependency kw)
            (dependency_links kw) (install_requires kw) (test_suite kw)
            (tests_require kw) (include_package_data kw).

Definition with_packages (pk : list string) (kw : kwargs) : kwargs :=
  mk_kwargs (name kw) (version kw) (description kw) (long_description kw)
            (classifiers kw) pk
            (url kw) (license kw) (author kw) (author_email kw) (dependency kw)
            (dependency_links kw) (install_requires kw) (test_suite kw)
            (tests_require kw) (include_package_data kw).

(** Two manifests that differ in [long_description] at most. *)
Definition same_but_long_description (kw1 kw2 : kwargs) : Prop :=
  with_long_description "" kw1 = with_long_description "" kw2.

(** One run, from the empty trace. *)
Definition run (e : env) : list event * (exn + unit) := script e [].

Definition trace (e : env) : list event := fst (run e).
Definition outcome (e : env) : exn + unit := snd (run e).

(** The directory of the script and the README path, as the script computes
    them. *)
Definition here (e : env) : string :=
  path.abspath (getcwd e) (path.dirname (script_file e)).

Definition readme_path (e : env) : string := path.join (here e) "README.md".

(** The absolute path of the script itself. *)
Definition script_location (e : env) : string :=
  path.abspath (getcwd e) (script_file e).

(** The manifests handed to [setup] and the files opened, read off a trace. *)
Fixpoint setup_calls (tr : list event) : list kwargs :=
  match tr with
  | [] => []
  | SetupCalled kw :: r => kw :: setup_calls r
  | _ :: r => setup_calls r
  end.

Fixpoint opened_files (tr : list event) : list string :=
  match tr with
  | [] => []
  | Opened p :: r => p :: opened_files r
  | _ :: r => opened_files r
  end.

Definition readable (st : file_state) : bool :=
  match st with Regular _ => true | _ => false end.

(** A path whose last component can be the name of a file: it is not
    empty and is neither [.] nor [..]. *)
Definition names_a_file (p : string) : bool :=
  let b := path.basename p in
  negb (b =? "") && negb (b =? ".") && negb (b =? "..").

(* ------------------------------------------------------------------ *)
(** ** Reading the marker of a version string *)

Module version_scheme.

(** The phases a pre-release segment can name. *)
Inductive phase : Type := Alpha | Beta | Candidate.

Definition is_digit (c : ascii) : bool :=
  (Ascii.leb "0" c && Ascii.leb c "9")%char.

Fixpoint all_digits (s : string) : bool :=
  match s with
  | EmptyString => true
  | String c r => is_digit c && all_digits r
  end.

(** What is left of a version after its release segment [N(.N)*]. *)
Fixpoint after_release (v : string) : string :=
  match v with
  | String c r => if is_digit c || Ascii.eqb c "." then after_release r else v
  | EmptyString => EmptyString
  end.

Definition numbered (ph : phase) (n : string) : option (phase * string) :=
  if negb (Str.is_empty n) && all_digits n then Some (ph, n) else None.

(** The pre-release segment of a version: [aN], [bN], [cN] or [rcN] right
    after the release segment. *)
Definition pre_release (v : string) : option (phase * string) :=
  match after_release v with
  | String "a" n => numbered Alpha n
  | String "b" n => numbered Beta n
  | String "r" (String "c" n) => numbered Candidate n
  | String "c" n => numbered Candidate n
  | _ => None
  end.

End version_scheme.

(* ------------------------------------------------------------------ *)
(** ** What the claims speak of *)

(** The exception a run ends with when the README is in state [st]. *)
Definition readme_error (p : string) (st : file_state) : option exn :=
  match st with
  | Missing => Some (IOError ENOENT (Some p))
  | Denied => Some (IOError EACCES (Some p))
  | IsDirectory => Some (IOError EISDIR (Some p))
  | Unreadable => Some (IOError EIO None)
  | Regular _ => None
  end.

(** The README beside a script at the absolute path [loc]. *)
Definition readme_beside (loc : string) : string :=
  path.join (path.or_dot (path.dirname loc)) "README.md".

(** The claim C10 as it is written: in any two runs that can read their
    README, the manifests differ in [long_description] at most. *)
Definition readme_only_claim : Prop :=
  forall e1 e2 kw1 kw2,
    readable (files e1 (readme_path e1)) = true ->
    readable (files e2 (readme_path e2)) = true ->
    In kw1 (setup_calls (trace e1)) ->
    In kw2 (setup_calls (trace e2)) ->
    same_but_long_description kw1 kw2.

(** The checkout before the package [pycroscopy.io] was added. *)
Definition early_checkout : list setuptools.node :=
  [ setuptools.File "README.md";
    setuptools.File "setup.py";
    setuptools.Dir "pycroscopy" [ setuptools.File "__init__.py" ] ].

(* ------------------------------------------------------------------ *)
(** ** The shape of normalized paths *)

Module PathShape.
Import Str path.

(** A component [normpath] keeps: no separator in it, and not empty. *)
Definition kept (c : string) : Prop := contains_char sep c = false /\ c <> "".

(** The result of [normpath], from the slashes and components it keeps. *)
Definition render (k : nat) (comps : list string) : string :=
  or_dot (repeat_char sep k ++ Str.join sep comps).

(** How the path of a file relates to the path of its directory. *)
Definition extends (d : string) (n : nat) : Prop :=
  (n = 0 /\ (d = "" \/ endswith_char sep d = true)) \/
  (n <> 0 /\ all_char sep d = false).

(** What [join] puts before a relative path. *)
Definition join_prefix (a : string) : string :=
  if is_empty a || endswith_char sep a then a else a ++ String sep "".

End PathShape.

(* ------------------------------------------------------------------ *)
(** ** What the further properties speak of *)

(** The files closed, read off a trace. *)
Fixpoint closed_files (tr : list event) : list string :=
  match tr with
  | [] => []
  | Closed p :: r => p :: closed_files r
  | _ :: r => closed_files r
  end.

(** A component of a canonical path: it holds no separator and is not
    empty, [.] or [..]. *)
Definition is_name (c : string) : Prop :=
  Str.contains_char Str.sep c = false /\ c <> "" /\ c <> "." /\ c <> "..".

(** A pattern without wildcard: it has neither [*] nor [?]. *)
Definition literal (pat : string) : bool :=
  negb (Str.contains_char "*" pat) && negb (Str.contains_char "?" pat).

(** The packages the script hands to [setup] in the environment [e]. *)
Definition found_packages (e : env) : list string :=
  setuptools.find_packages (listing e) (setuptools.PyStr "tests") (setuptools.PyList ["*"]).

(* ------------------------------------------------------------------ *)
(** ** A checkout to run the script in *)

Definition checkout : list setuptools.node :=
  [ setuptools.File "README.md";
    setuptools.File "setup.py";
    setuptools.Dir "docs" [setuptools.File "index.rst"];
    setuptools.Dir "pycroscopy"
      [ setuptools.File "__init__.py";
        setuptools.Dir "io" [setuptools.File "__init__.py"; setuptools.File "hdf_utils.py"] ];
    setuptools.Dir "tests"
      [ setuptools.File "__init__.py"; setuptools.File "test_io.py" ] ].

(** A tree at [/home/user/pyCroscopy], run as [python setup.py] from inside
    it, with the README in state [st]. *)
Definition run_in (tree : list setuptools.node) (st : file_state) : env :=
  {| script_file := "setup.py";
     getcwd := "/home/user/pyCroscopy";
     files := fun p => if p =? "/home/user/pyCroscopy/README.md" then st else Missing;
     listing := tree |}.

Definition in_checkout (st : file_state) : env := run_in checkout st.

(** The same checkout, run as [python pyCroscopy/setup.py] from the
    directory above it. *)
Definition from_above (st : file_state) : env :=
  {| script_file := "pyCroscopy/setup.py";
     getcwd := "/home/user";
     files := fun p => if p =? "/home/user/pyCroscopy/README.md" then st else Missing;
     listing := [setuptools.Dir "pyCroscopy" checkout] |}.

(** The manifest of a run in that checkout. *)
Definition sample_manifest : kwargs :=
  manifest "# pyCroscopy" ["pycroscopy"; "tests"; "pycroscopy.io"].

(* ------------------------------------------------------------------ *)
(** ** Lemmas on [str] operations *)

Module StrFacts.
Import Str.

Lemma append_nil_r (s : string) : s ++ "" = s.
Proof. induction s as [|c s IH]; cbn; [reflexivity | now rewrite IH]. Qed.

Lemma append_assoc (a b c : string) : (a ++ b) ++ c = a ++ (b ++ c).
Proof. induction a as [|x a IH]; cbn; [reflexivity | now rewrite IH]. Qed.

Lemma append_eq_nil (a b : string) : a ++ b = "" -> a = "" /\ b = "".
Proof. destruct a; cbn; [auto | discriminate]. Qed.

Lemma append_snoc (a : string) (c : ascii) (b : string) :
  a ++ String c b = (a ++ String c "") ++ b.
Proof. now rewrite append_assoc. Qed.

Lemma repeat_char_snoc (c : ascii) (n : nat) :
  repeat_char c (S n) = repeat_char c n ++ String c "".
Proof. induction n as [|n IH]; [reflexivity|]. cbn in *. now rewrite <- IH. Qed.

(** *** [split] *)

Lemma split_nonempty (c : ascii) (s : string) : split c s <> [].
Proof.
  destruct s as [|d r]; cbn; [discriminate|].
  destruct (Ascii.eqb d c); [discriminate|].
  destruct (split c r); discriminate.
Qed.

Lemma split_without (c : ascii) (s : string) :
  contains_char c s = false -> split c s = [s].
Proof.
  induction s as [|d r IH]; cbn; [reflexivity|].
  intros H. apply orb_false_iff in H. destruct H as [Hd Hr].
  rewrite Hd, (IH Hr). reflexivity.
Qed.

Lemma split_app_sep (c : ascii) (a b : string) :
  split c (a ++ String c b) = (split c a ++ split c b)%list.
Proof.
  induction a as [|d a IH]; cbn.
  - now rewrite Ascii.eqb_refl.
  - destruct (Ascii.eqb d c); rewrite IH; [reflexivity|].
    pose proof (split_nonempty c a) as Hne.
    destruct (split c a); [contradiction | reflexivity].
Qed.

Lemma split_repeat_char (c : ascii) (n : nat) :
  split c (repeat_char c n) = List.repeat "" (S n).
Proof.
  induction n as [|n IH]; cbn; [reflexivity|].
  rewrite Ascii.eqb_refl. now rewrite IH.
Qed.

Lemma split_all_without (c : ascii) (s : string) :
  Forall (fun x => contains_char c x = false) (split c s).
Proof.
  induction s as [|d r IH]; cbn.
  - repeat constructor.
  - destruct (Ascii.eqb d c) eqn:E.
    + constructor; [reflexivity | exact IH].
    + destruct (split c r) as [|h t]; inversion IH; subst; constructor; cbn;
        try rewrite E; auto.
Qed.

(** *** [endswith], [all_char], [contains_char] *)

Lemma endswith_char_snoc (c : ascii) (s : string) :
  endswith_char c s = true -> exists x, s = x ++ String c "".
Proof.
  induction s as [|d r IH]; cbn; [discriminate|].
  destruct r as [|d' r'].
  - intros H. apply Ascii.eqb_eq in H. subst. now exists "".
  - intros H. destruct (IH H) as [x Hx]. exists (String d x). cbn. now rewrite <- Hx.
Qed.

Lemma endswith_char_app (c : ascii) (x : string) :
  endswith_char c (x ++ String c "") = true.
Proof.
  induction x as [|d x IH]; cbn; [apply Ascii.eqb_refl|].
  destruct (x ++ String c "") eqn:E; [destruct x; discriminate | exact IH].
Qed.

Lemma all_char_app (c : ascii) (a b : string) :
  all_char c (a ++ b) = all_char c a && all_char c b.
Proof.
  induction a as [|d a IH]; cbn; [reflexivity|].
  now rewrite IH, andb_assoc.
Qed.

Lemma all_char_repeat (c : ascii) (n : nat) : all_char c (repeat_char c n) = true.
Proof. induction n; cbn; [reflexivity|]. now rewrite Ascii.eqb_refl. Qed.

Lemma all_char_is_repeat (c : ascii) (s : string) :
  all_char c s = true -> s = repeat_char c (String.length s).
Proof.
  induction s as [|d r IH]; cbn; [reflexivity|].
  intros H. apply andb_true_iff in H. destruct H as [Hd Hr].
  apply Ascii.eqb_eq in Hd. subst. now rewrite <- (IH Hr).
Qed.

Lemma all_char_without (c : ascii) (s : string) :
  s <> "" -> contains_char c s = false -> all_char c s = false.
Proof.
  destruct s as [|d r]; [congruence|]. cbn. intros _ H.
  apply orb_false_iff in H. destruct H as [-> _]. reflexivity.
Qed.

Lemma contains_char_app (c : ascii) (a b : string) :
  contains_char c (a ++ b) = contains_char c a || contains_char c b.
Proof.
  induction a as [|d a IH]; cbn; [reflexivity|].
  now rewrite IH, orb_assoc.
Qed.

(** *** [upto_last] and [after_last] *)

Lemma upto_last_empty (c : ascii) (s : string) :
  upto_last c s = "" <-> contains_char c s = false.
Proof.
  induction s as [|d r IH]; cbn; [tauto|].
  destruct (upto_last c r) eqn:E; destruct (Ascii.eqb d c); cbn;
    split; intros H; try discriminate; try reflexivity.
  - now apply IH.
  - apply IH in H. discriminate.
Qed.

Lemma upto_after (c : ascii) (s : string) :
  upto_last c s ++ after_last c s = s.
Proof.
  induction s as [|d r IH]; [reflexivity|].
  cbn [upto_last after_last].
  destruct (upto_last c r) as [|a h] eqn:E.
  - pose proof (proj1 (upto_last_empty c r) E) as Hr. rewrite Hr, orb_false_r.
    cbn in IH. destruct (Ascii.eqb d c); cbn; [now rewrite IH | reflexivity].
  - assert (Hr : contains_char c r = true).
    { destruct (contains_char c r) eqn:C; [reflexivity|].
      apply upto_last_empty in C. congruence. }
    rewrite Hr, orb_true_r. cbn. cbn in IH. now rewrite IH.
Qed.

Lemma after_last_without (c : ascii) (s : string) :
  contains_char c (after_last c s) = false.
Proof.
  induction s as [|d r IH]; [reflexivity|].
  cbn [after_last]. destruct (Ascii.eqb d c || contains_char c r) eqn:E; [exact IH|].
  cbn. exact E.
Qed.

Lemma upto_last_snoc (c : ascii) (x : string) :
  upto_last c (x ++ String c "") = x ++ String c "".
Proof.
  induction x as [|d x IH]; cbn.
  - now rewrite Ascii.eqb_refl.
  - rewrite IH. destruct (x ++ String c "") eqn:E; [destruct x; discriminate | reflexivity].
Qed.

Lemma upto_last_app_without (c : ascii) (a b : string) :
  contains_char c b = false -> upto_last c (a ++ b) = upto_last c a.
Proof.
  intros Hb. induction a as [|d a IH]; cbn.
  - now apply upto_last_empty.
  - now rewrite IH.
Qed.

Lemma upto_last_shape (c : ascii) (s : string) :
  upto_last c s = "" \/ exists x, upto_last c s = x ++ String c "".
Proof.
  induction s as [|d r IH]; cbn; [now left|].
  destruct IH as [->|[x ->]].
  - destruct (Ascii.eqb_spec d c) as [->|]; [right; now exists "" | now left].
  - right. exists (String d x).
    destruct (x ++ String c "") eqn:E; [destruct x; discriminate |].
    cbn. now rewrite E.
Qed.

(** *** [rstrip] *)

Lemma rstrip_decomp (c : ascii) (s : string) :
  exists n, s = rstrip c s ++ repeat_char c n.
Proof.
  induction s as [|d r [n IH]]; cbn; [now exists 0|].
  destruct (rstrip c r) as [|a r'] eqn:E.
  - destruct (Ascii.eqb_spec d c) as [->|].
    + exists (S n). cbn. now rewrite IH at 1.
    + exists n. cbn. now rewrite IH at 1.
  - exists n. cbn. now rewrite IH at 1.
Qed.

Lemma rstrip_snoc (c : ascii) (s : string) :
  rstrip c (s ++ String c "") = rstrip c s.
Proof.
  induction s as [|d r IH]; cbn.
  - now rewrite Ascii.eqb_refl.
  - now rewrite IH.
Qed.

Lemma rstrip_repeat (c : ascii) (s : string) (n : nat) :
  rstrip c (s ++ repeat_char c n) = rstrip c s.
Proof.
  induction n as [|n IH]; [now rewrite append_nil_r|].
  rewrite repeat_char_snoc, <- append_assoc, rstrip_snoc. exact IH.
Qed.

Lemma rstrip_without (c : ascii) (s : string) :
  contains_char c s = false -> rstrip c s = s.
Proof.
  induction s as [|d r IH]; cbn; [reflexivity|].
  intros H. apply orb_false_iff in H. destruct H as [Hd Hr].
  rewrite (IH Hr), Hd. destruct r; reflexivity.
Qed.

Lemma rstrip_app_keep (c : ascii) (a b : string) :
  rstrip c b <> "" -> rstrip c (a ++ b) = a ++ rstrip c b.
Proof.
  intros Hb. induction a as [|d a IH]; cbn; [reflexivity|].
  rewrite IH. destruct (a ++ rstrip c b) eqn:E; [|reflexivity].
  destruct a; cbn in E; [contradiction | discriminate].
Qed.

Lemma rstrip_not_all (c : ascii) (s : string) :
  all_char c s = false -> all_char c (rstrip c s) = false.
Proof.
  intros H. destruct (rstrip_decomp c s) as [n Hn].
  rewrite Hn, all_char_app, all_char_repeat, andb_true_r in H. exact H.
Qed.

Lemma rstrip_endswith (c : ascii) (s : string) :
  endswith_char c (rstrip c s) = false.
Proof.
  induction s as [|d r IH]; cbn; [reflexivity|].
  destruct (rstrip c r) as [|a r'] eqn:E.
  - destruct (Ascii.eqb d c) eqn:D; cbn; [reflexivity | exact D].
  - exact IH.
Qed.

End StrFacts.

(** *** [os.path] on some paths *)

Example normpath_ex1 : path.normpath "/a//b/../c/./setup.py" = "/a/c/setup.py".
Proof. reflexivity. Qed.
Example normpath_ex2 : path.normpath "//a/../../x" = "//x".
Proof. reflexivity. Qed.
Example normpath_ex3 : path.normpath "../a/../../x/" = "../../x".
Proof. reflexivity. Qed.
Example dirname_ex1 : path.dirname "a//setup.py" = "a".
Proof. reflexivity. Qed.
Example dirname_ex2 : path.dirname "///setup.py" = "///".
Proof. reflexivity. Qed.
Example dirname_ex3 : path.dirname "setup.py" = "".
Proof. reflexivity. Qed.
Example abspath_ex : path.abspath "/home/u/proj" (path.dirname "setup.py") = "/home/u/proj".
Proof. reflexivity. Qed.

Example readme_at_1 :
  path.join (path.abspath "/home/u/proj" (path.dirname "setup.py")) "README.md" = "/home/u/proj/README.md" /\
  path.abspath "/home/u/proj" "setup.py" = "/home/u/proj/setup.py".
Proof. split; reflexivity. Qed.

Example readme_at_2 :
  path.join (path.abspath "/home/u" (path.dirname "proj/setup.py")) "README.md" = "/home/u/proj/README.md" /\
  path.abspath "/home/u" "proj/setup.py" = "/home/u/proj/setup.py".
Proof. split; reflexivity. Qed.

Example readme_at_3 :
  path.join (path.abspath "/" (path.dirname "home/u/proj/setup.py")) "README.md" = "/home/u/proj/README.md" /\
  path.abspath "/" "home/u/proj/setup.py" = "/home/u/proj/setup.py".
Proof. split; reflexivity. Qed.

Example readme_at_4 :
  path.join (path.abspath "/home/u/proj/docs" (path.dirname "../setup.py")) "README.md" = "/home/u/proj/README.md" /\
  path.abspath "/home/u/proj/docs" "../setup.py" = "/home/u/proj/setup.py".
Proof. split; reflexivity. Qed.

Example readme_at_5 :
  path.join (path.abspath "/tmp" (path.dirname "/home/u/proj/setup.py")) "README.md" = "/home/u/proj/README.md" /\
  path.abspath "/tmp" "/home/u/proj/setup.py" = "/home/u/proj/setup.py".
Proof. split; reflexivity. Qed.

Example readme_at_6 :
  path.join (path.abspath "/tmp" (path.dirname "//srv/proj//setup.py")) "README.md" = "//srv/proj/README.md" /\
  path.abspath "/tmp" "//srv/proj//setup.py" = "//srv/proj/setup.py".
Proof. split; reflexivity. Qed.

Example readme_at_7 :
  path.join (path.abspath "/tmp" (path.dirname "///srv/./proj/../proj/setup.py")) "README.md" = "/srv/proj/README.md" /\
  path.abspath "/tmp" "///srv/./proj/../proj/setup.py" = "/srv/proj/setup.py".
Proof. split; reflexivity. Qed.

Example readme_at_8 :
  path.join (path.abspath "/home/u/" (path.dirname "./setup.py")) "README.md" = "/home/u/README.md" /\
  path.abspath "/home/u/" "./setup.py" = "/home/u/setup.py".
Proof. split; reflexivity. Qed.

Example readme_at_9 :
  path.join (path.abspath "/a/b" (path.dirname "../../setup.py")) "README.md" = "/README.md" /\
  path.abspath "/a/b" "../../setup.py" = "/setup.py".
Proof. split; reflexivity. Qed.

Example readme_at_10 :
  path.join (path.abspath "/a" (path.dirname "../../../setup.py")) "README.md" = "/README.md" /\
  path.abspath "/a" "../../../setup.py" = "/setup.py".
Proof. split; reflexivity. Qed.

Example readme_at_11 :
  path.join (path.abspath "//net/share" (path.dirname "pkg/setup.py")) "README.md" = "//net/share/pkg/README.md" /\
  path.abspath "//net/share" "pkg/setup.py" = "//net/share/pkg/setup.py".
Proof. split; reflexivity. Qed.

Example readme_at_12 :
  path.join (path.abspath "/" (path.dirname "setup.py")) "README.md" = "/README.md" /\
  path.abspath "/" "setup.py" = "/setup.py".
Proof. split; reflexivity. Qed.

Example fnmatchcase_examples :
  fnmatch.fnmatchcase "tests" "t" = false /\
  fnmatch.fnmatchcase "tests" "tests" = true /\
  fnmatch.fnmatchcase "t" "t" = true /\
  fnmatch.fnmatchcase "pycroscopy.tests" "tests" = false /\
  fnmatch.fnmatchcase "a.__pycache__" "*__pycache__" = true /\
  fnmatch.fnmatchcase "ez_setup" "ez_setup" = true /\
  fnmatch.fnmatchcase "tests" "*" = true /\
  fnmatch.fnmatchcase "ab" "a?" = true /\
  fnmatch.fnmatchcase "abc" "a*c" = true /\
  fnmatch.fnmatchcase "abc" "a*d" = false /\
  fnmatch.fnmatchcase "" "*" = true /\
  fnmatch.fnmatchcase "s" "s" = true.
Proof. repeat split. Qed.

Example find_packages_examples :
  setuptools.all_packages checkout = ["pycroscopy"; "tests"; "pycroscopy.io"] /\
  setuptools.find_packages checkout (setuptools.PyList []) (setuptools.PyList ["*"]) =
    ["pycroscopy"; "tests"; "pycroscopy.io"] /\
  setuptools.find_packages checkout (setuptools.PyList ["tests"]) (setuptools.PyList ["*"]) =
    ["pycroscopy"; "pycroscopy.io"] /\
  setuptools.find_packages checkout (setuptools.PyStr "tests") (setuptools.PyList ["*"]) =
    ["pycroscopy"; "tests"; "pycroscopy.io"] /\
  setuptools.find_packages
    [setuptools.Dir "s" [setuptools.File "__init__.py"];
     setuptools.Dir "tests" [setuptools.File "__init__.py"];
     setuptools.Dir "build.tmp" [setuptools.File "__init__.py"];
     setuptools.Dir "data" [setuptools.Dir "inner" [setuptools.File "__init__.py"]]]
    (setuptools.PyStr "tests") (setuptools.PyList ["*"]) = ["tests"].
Proof. repeat split. Qed.

(** The order of the walk: the packages of a directory before any of their
    subpackages; nothing below a directory that is not a package. *)
Example walk_order_example :
  setuptools.all_packages
    [ setuptools.Dir "a"
        [ setuptools.File "__init__.py";
          setuptools.Dir "x"
            [ setuptools.File "__init__.py";
              setuptools.Dir "y" [setuptools.File "__init__.py"] ] ];
      setuptools.Dir "b"
        [ setuptools.File "__init__.py";
          setuptools.Dir "z" [setuptools.File "__init__.py"] ];
      setuptools.Dir "data"
        [ setuptools.Dir "inner" [setuptools.File "__init__.py"] ];
      setuptools.Dir "pycache" [] ] =
  ["a"; "b"; "a.x"; "a.x.y"; "b.z"].
Proof. reflexivity. Qed.

Example yield_lines_examples :
  pkg_resources.yield_lines [""] = [] /\
  pkg_resources.yield_lines ["numpy"; ""; "  h5py >= 2.5  "; "# later"] =
    ["numpy"; "h5py >= 2.5"].
Proof. split; reflexivity. Qed.

Example pre_release_examples :
  version_scheme.pre_release "0.0a1" = Some (version_scheme.Alpha, "1") /\
  version_scheme.pre_release "1.2" = None /\
  version_scheme.pre_release "1.2rc3" = Some (version_scheme.Candidate, "3") /\
  version_scheme.pre_release "1.2b" = None.
Proof. repeat split. Qed.

(* ------------------------------------------------------------------ *)
(** ** Lemmas on [os.path] *)

Module PathFacts.
Import Str StrFacts path PathShape.

Lemma normpath_render (p : string) :
  normpath p = render (initial_slashes p) (norm_comps p).
Proof.
  destruct p as [|a p]; [reflexivity|].
  unfold normpath, render. cbn [is_empty].
  destruct (initial_slashes (String a p)); reflexivity.
Qed.

Lemma or_dot_nonempty (s : string) : s <> "" -> or_dot s = s.
Proof. destruct s; [congruence | reflexivity]. Qed.

(** *** The loop of [normpath] *)

Lemma norm_step_empty (k : nat) (acc : list string) : norm_step k acc "" = acc.
Proof. reflexivity. Qed.

Lemma norm_step_name (k : nat) (acc : list string) (b : string) :
  b <> "" -> b <> "." -> b <> ".." -> norm_step k acc b = (acc ++ [b])%list.
Proof.
  intros H0 H1 H2. unfold norm_step.
  apply String.eqb_neq in H0, H1, H2. rewrite H0, H1, H2. reflexivity.
Qed.

Lemma norm_fold_empties (k n : nat) (acc : list string) :
  fold_left (norm_step k) (List.repeat "" n) acc = acc.
Proof. induction n; cbn; [reflexivity | exact IHn]. Qed.

Lemma Forall_removelast {A} (P : A -> Prop) (l : list A) :
  Forall P l -> Forall P (removelast l).
Proof.
  induction 1 as [|x l Hx Hl IH]; cbn; [constructor|].
  destruct l; [constructor | constructor; assumption].
Qed.

Lemma norm_step_kept (k : nat) (acc : list string) (c : string) :
  Forall kept acc -> contains_char sep c = false -> Forall kept (norm_step k acc c).
Proof.
  intros Hacc Hc. unfold norm_step.
  destruct (c =? "") eqn:E0; cbn; [exact Hacc|].
  destruct (c =? "."); cbn; [exact Hacc|].
  match goal with |- Forall _ (if ?b then _ else _) => destruct b end.
  - apply Forall_app. split; [exact Hacc|]. constructor; [|constructor].
    split; [exact Hc|]. now apply String.eqb_neq.
  - destruct acc; [exact Hacc | now apply Forall_removelast].
Qed.

Lemma norm_fold_kept (k : nat) (l acc : list string) :
  Forall (fun c => contains_char sep c = false) l ->
  Forall kept acc -> Forall kept (fold_left (norm_step k) l acc).
Proof.
  intros Hl. revert acc. induction Hl as [|c l Hc Hl IH]; cbn; intros acc Hacc.
  - exact Hacc.
  - apply IH. now apply norm_step_kept.
Qed.

(** *** [join] of kept components *)

Lemma join_snoc (c : list string) (b : string) :
  c <> [] -> Str.join sep (c ++ [b]) = Str.join sep c ++ String sep b.
Proof.
  induction c as [|x c IH]; [congruence|]. intros _.
  destruct c as [|y c]; [reflexivity|].
  change (Str.join sep ((x :: y :: c) ++ [b]))
    with (x ++ String sep (Str.join sep ((y :: c) ++ [b]))).
  rewrite IH by discriminate.
  change (Str.join sep (x :: y :: c)) with (x ++ String sep (Str.join sep (y :: c))).
  now rewrite append_assoc.
Qed.

Lemma join_kept_last (c : list string) :
  c <> [] -> Forall kept c -> exists a l, Str.join sep c = a ++ l /\ kept l.
Proof.
  induction c as [|x c IH]; [congruence|]. intros _ H.
  inversion H as [|? ? Hx Hc]; subst.
  destruct c as [|y c].
  - exists "", x. split; [reflexivity | exact Hx].
  - destruct (IH ltac:(discriminate) Hc) as (a & l & Ha & Hl).
    exists (x ++ String sep a), l. split; [|exact Hl].
    change (Str.join sep (x :: y :: c)) with (x ++ String sep (Str.join sep (y :: c))).
    rewrite Ha. now rewrite append_assoc.
Qed.

(** *** The directory of a normalized path *)

Lemma upto_last_repeat (n : nat) : upto_last sep (repeat_char sep n) = repeat_char sep n.
Proof.
  destruct n as [|n]; [reflexivity|].
  rewrite repeat_char_snoc. apply upto_last_snoc.
Qed.

Lemma dirname_render (k : nat) (c : list string) (b : string) :
  Forall kept c -> contains_char sep b = false -> b <> "" ->
  or_dot (dirname (render k (c ++ [b]))) = render k c.
Proof.
  intros Hc Hb Hne. unfold render.
  destruct c as [|x c].
  - cbn [app Str.join]. rewrite append_nil_r.
    rewrite (or_dot_nonempty (repeat_char sep k ++ b))
      by (destruct b; [congruence | destruct k; cbn; discriminate]).
    unfold dirname. rewrite (upto_last_app_without _ _ _ Hb), upto_last_repeat.
    destruct k as [|k]; [reflexivity|].
    rewrite all_char_repeat. cbn [is_empty repeat_char negb andb]. reflexivity.
  - destruct (join_kept_last (x :: c) ltac:(discriminate) Hc) as (a & l & Ha & Hl1 & Hl2).
    rewrite join_snoc by discriminate. rewrite Ha.
    replace (repeat_char sep k ++ (a ++ l) ++ String sep b)
      with (((repeat_char sep k ++ a ++ l) ++ String sep "") ++ b)
      by (now rewrite !append_assoc).
    set (s := repeat_char sep k ++ a ++ l).
    assert (Hs : s <> "").
    { unfold s. intros E. apply append_eq_nil in E. destruct E as [_ E].
      apply append_eq_nil in E. destruct E as [_ E]. contradiction. }
    assert (Hrs : rstrip sep s = s).
    { unfold s. rewrite <- append_assoc.
      assert (Hl : rstrip sep l = l) by now apply rstrip_without.
      rewrite rstrip_app_keep by now rewrite Hl.
      now rewrite Hl. }
    assert (Hall : all_char sep s = false).
    { unfold s. rewrite !all_char_app.
      rewrite (all_char_without sep l Hl2 Hl1). now rewrite !andb_false_r. }
    clearbody s.
    rewrite (or_dot_nonempty s Hs).
    rewrite (or_dot_nonempty ((s ++ String sep "") ++ b))
      by (intros E; apply append_eq_nil in E; destruct E as [_ E]; contradiction).
    unfold dirname. rewrite (upto_last_app_without _ _ _ Hb), upto_last_snoc.
    rewrite all_char_app, Hall.
    replace (is_empty (s ++ String sep "")) with false
      by (destruct s; [congruence | reflexivity]).
    cbn [negb andb]. rewrite rstrip_snoc, Hrs.
    now apply or_dot_nonempty.
Qed.

(** *** Initial slashes *)

Lemma prefix_nil (s : string) : prefix "" s = true.
Proof. destruct s; reflexivity. Qed.

Ltac slashes_cases :=
  unfold initial_slashes; cbn [prefix append];
  repeat match goal with
         | |- context [ascii_dec ?x ?y] => destruct (ascii_dec x y); subst
         end;
  rewrite ?prefix_nil; cbn in *; try reflexivity; try congruence.

Lemma initial_slashes_app_name (d : string) (c : ascii) (b : string) :
  Ascii.eqb c sep = false -> initial_slashes (d ++ String c b) = initial_slashes d.
Proof.
  intros Hc.
  destruct d as [|d1 [|d2 [|d3 d]]]; slashes_cases.
Qed.

Lemma initial_slashes_app_not_all (d x : string) :
  all_char sep d = false -> initial_slashes (d ++ x) = initial_slashes d.
Proof.
  intros Hd.
  destruct d as [|d1 [|d2 [|d3 d]]]; slashes_cases.
Qed.

(** *** A path and its last component *)

Lemma split_app_repeat (d : string) (m : nat) :
  split sep (d ++ repeat_char sep m) = (split sep d ++ List.repeat "" m)%list.
Proof.
  induction m as [|m IH].
  - now rewrite append_nil_r, app_nil_r.
  - rewrite repeat_char_snoc, <- append_assoc, split_app_sep, IH.
    rewrite <- app_assoc. f_equal. cbn [split]. now rewrite <- repeat_cons.
Qed.

Lemma split_parent (d b : string) (n : nat) :
  contains_char sep b = false ->
  extends d n ->
  exists cs, split sep (d ++ repeat_char sep n ++ b) = (cs ++ [b])%list /\
             forall k acc, fold_left (norm_step k) cs acc =
                           fold_left (norm_step k) (split sep d) acc.
Proof.
  intros Hb [[-> [-> | He]] | [Hn _]].
  - exists []. split; [now apply split_without | reflexivity].
  - apply endswith_char_snoc in He. destruct He as [x ->].
    exists (split sep x). cbn [repeat_char append]. split.
    + rewrite append_assoc. cbn [append].
      now rewrite split_app_sep, (split_without _ _ Hb).
    + intros k acc. rewrite split_app_sep, fold_left_app. reflexivity.
  - destruct n as [|m]; [congruence|].
    exists (split sep (d ++ repeat_char sep m)). split.
    + rewrite repeat_char_snoc, <- !append_assoc.
      rewrite (append_assoc (d ++ repeat_char sep m)). cbn [append].
      now rewrite split_app_sep, (split_without _ _ Hb).
    + intros k acc. rewrite split_app_repeat, fold_left_app.
      apply norm_fold_empties.
Qed.

Lemma initial_slashes_parent (d b : string) (n : nat) :
  contains_char sep b = false -> b <> "" ->
  extends d n ->
  initial_slashes (d ++ repeat_char sep n ++ b) = initial_slashes d.
Proof.
  intros Hb Hne [[-> _] | [_ Hd]].
  - destruct b as [|c b]; [congruence|].
    cbn in Hb. apply orb_false_iff in Hb. destruct Hb as [Hc _].
    now apply initial_slashes_app_name.
  - now apply initial_slashes_app_not_all.
Qed.

(** The directory of the normalized path of a file is the normalized path
    of its directory. *)
Lemma normpath_parent (d b : string) (n : nat) :
  contains_char sep b = false -> b <> "" -> b <> "." -> b <> ".." ->
  extends d n ->
  or_dot (dirname (normpath (d ++ repeat_char sep n ++ b))) = normpath d.
Proof.
  intros Hb H0 H1 H2 Hext.
  rewrite !normpath_render.
  rewrite (initial_slashes_parent d b n Hb H0 Hext).
  destruct (split_parent d b n Hb Hext) as (cs & Hsplit & Hfold).
  assert (Hcomps : norm_comps (d ++ repeat_char sep n ++ b) = (norm_comps d ++ [b])%list).
  { unfold norm_comps.
    rewrite (initial_slashes_parent d b n Hb H0 Hext), Hsplit, fold_left_app, Hfold.
    cbn [fold_left]. now apply norm_step_name. }
  rewrite Hcomps.
  apply dirname_render; try assumption.
  apply norm_fold_kept; [apply split_all_without | constructor].
Qed.

(** *** [abspath] of the directory of a file *)

Lemma join_relative (a b : string) :
  startswith_char sep b = false -> join a b = join_prefix a ++ b.
Proof.
  intros Hb. unfold join, join_prefix. rewrite Hb.
  destruct (is_empty a || endswith_char sep a); [reflexivity|].
  now rewrite append_assoc.
Qed.

Lemma join_prefix_extends (a : string) : extends (join_prefix a) 0.
Proof.
  left. split; [reflexivity|]. unfold join_prefix.
  destruct (is_empty a || endswith_char sep a) eqn:E.
  - apply orb_true_iff in E. destruct E as [E|E]; [left | now right].
    destruct a; [reflexivity | discriminate].
  - right. apply endswith_char_app.
Qed.

Lemma startswith_char_app (c : ascii) (a b : string) :
  a <> "" -> startswith_char c (a ++ b) = startswith_char c a.
Proof. destruct a; [congruence | reflexivity]. Qed.

Lemma startswith_without (c : ascii) (b : string) :
  contains_char c b = false -> startswith_char c b = false.
Proof.
  destruct b as [|d b]; [reflexivity|]. cbn. intros H.
  apply orb_false_iff in H. tauto.
Qed.

Lemma names_a_file_basename (f : string) :
  names_a_file f = true ->
  contains_char sep (basename f) = false /\
  basename f <> "" /\ basename f <> "." /\ basename f <> "..".
Proof.
  unfold names_a_file. intros H.
  apply andb_true_iff in H. destruct H as [H H2].
  apply andb_true_iff in H. destruct H as [H0 H1].
  apply negb_true_iff, String.eqb_neq in H0, H1, H2.
  split; [apply after_last_without | tauto].
Qed.

(** The script directory, as the script computes it, is the directory of
    the absolute path of the script. *)
Lemma abspath_dirname (cwd f : string) :
  names_a_file f = true ->
  abspath cwd (dirname f) = or_dot (dirname (abspath cwd f)).
Proof.
  intros Hf.
  destruct (names_a_file_basename f Hf) as (Hb & H0 & H1 & H2).
  pose proof (upto_after sep f) as Hsplit. fold (basename f) in Hsplit.
  set (b := basename f) in *. clearbody b.
  unfold abspath, isabs.
  destruct (upto_last_shape sep f) as [Hh | [x Hh]].
  - (* no separator: the script is named relative to the working directory *)
    assert (Hdir : dirname f = "") by (unfold dirname; now rewrite Hh).
    rewrite Hh in Hsplit. cbn [append] in Hsplit. subst f. rewrite Hdir.
    cbn [startswith_char]. rewrite (startswith_without _ _ Hb).
    rewrite !join_relative by (auto using startswith_without).
    rewrite append_nil_r. symmetry.
    apply (normpath_parent (join_prefix cwd) b 0); auto using join_prefix_extends.
  - set (h := x ++ String sep "") in *.
    assert (Hne : h <> "") by (unfold h; destruct x; cbn; discriminate).
    assert (Hend : endswith_char sep h = true) by apply endswith_char_app.
    clearbody h. rewrite Hh in Hsplit.
    destruct (all_char sep h) eqn:Hall.
    + (* the script lies in the root *)
      assert (Hdir : dirname f = h).
      { unfold dirname. rewrite Hh, Hall. now rewrite andb_false_r. }
      assert (Habs : startswith_char sep h = true).
      { destruct h; [congruence|]. cbn in *. apply andb_true_iff in Hall. tauto. }
      rewrite Hdir, <- Hsplit. rewrite (startswith_char_app sep h b Hne), Habs.
      symmetry. apply (normpath_parent h b 0); auto. left; auto.
    + assert (Hdir : dirname f = rstrip sep h).
      { unfold dirname. rewrite Hh, Hall. destruct h; [congruence | reflexivity]. }
      rewrite Hdir.
      destruct (rstrip_decomp sep h) as [n Hn].
      pose proof (rstrip_not_all sep h Hall) as Hd.
      pose proof (rstrip_endswith sep h) as He.
      set (d := rstrip sep h) in *.
      assert (Hdne : d <> "") by (intros E; rewrite E in Hd; discriminate).
      assert (Hn0 : n <> 0).
      { intros ->. cbn in Hn. rewrite append_nil_r in Hn.
        rewrite <- Hn in He. congruence. }
      assert (Hfd : f = d ++ repeat_char sep n ++ b).
      { rewrite <- Hsplit, Hn. now rewrite append_assoc. }
      clearbody d. rewrite Hfd.
      rewrite (startswith_char_app sep d _ Hdne).
      destruct (startswith_char sep d) eqn:Habs.
      * symmetry. apply normpath_parent; auto. right. auto.
      * rewrite !join_relative;
          [| now rewrite startswith_char_app | exact Habs].
        rewrite <- (append_assoc (join_prefix cwd) d). symmetry.
        apply normpath_parent; auto. right. split; [exact Hn0|].
        rewrite all_char_app, Hd. apply andb_false_r.
Qed.

End PathFacts.

(* ------------------------------------------------------------------ *)
(** ** The two courses of a run *)

Lemma run_readable (e : env) (s : string) :
  files e (readme_path e) = Regular s ->
  run e =
    ([ Opened (readme_path e); Closed (readme_path e);
       FoundPackages (setuptools.find_packages (listing e) (setuptools.PyStr "tests")
                                               (setuptools.PyList ["*"]));
       SetupCalled (manifest s (setuptools.find_packages (listing e)
                                  (setuptools.PyStr "tests") (setuptools.PyList ["*"]))) ],
     inr tt).
Proof.
  intros H.
  unfold run, script, bind, ask, abspath, ret, with_as, open, bind, ask.
  fold (here e). fold (readme_path e). rewrite H.
  reflexivity.
Qed.

Lemma run_not_readable (e : env) (x : exn) :
  readme_error (readme_path e) (files e (readme_path e)) = Some x ->
  outcome e = inl x /\ setup_calls (trace e) = [] /\
  (forall pk, ~ In (FoundPackages pk) (trace e)).
Proof.
  unfold outcome, trace, run, script, bind, ask, abspath, ret, with_as, open, bind, ask.
  fold (here e). fold (readme_path e).
  destruct (files e (readme_path e)); cbn; intros H; inversion H; subst;
    (split; [reflexivity | split; [reflexivity | ]]);
    intros pk Hin; cbn in Hin; intuition congruence.
Qed.

Lemma readme_error_none (p : string) (st : file_state) :
  readme_error p st = None <-> readable st = true.
Proof. destruct st; cbn; split; congruence. Qed.

Lemma readable_regular (st : file_state) :
  readable st = true <-> exists s, st = Regular s.
Proof.
  destruct st; cbn; split; try congruence; try (intros [s Hs]; congruence).
  intros _. now exists content.
Qed.

Lemma setup_calls_readable (e : env) (s : string) :
  files e (readme_path e) = Regular s ->
  setup_calls (trace e) =
    [manifest s (setuptools.find_packages (listing e) (setuptools.PyStr "tests")
                                          (setuptools.PyList ["*"]))].
Proof. intros H. unfold trace. now rewrite (run_readable e s H). Qed.

(** Every manifest that reaches [setup] is the one the script writes, for
    the README that was read and the packages that were found. *)
Lemma setup_calls_inv (e : env) (kw : kwargs) :
  In kw (setup_calls (trace e)) ->
  exists s, files e (readme_path e) = Regular s /\
            kw = manifest s (setuptools.find_packages (listing e)
                               (setuptools.PyStr "tests") (setuptools.PyList ["*"])).
Proof.
  intros Hin.
  destruct (readme_error (readme_path e) (files e (readme_path e))) as [x|] eqn:E.
  - apply run_not_readable in E. destruct E as (_ & E & _).
    rewrite E in Hin. destruct Hin.
  - apply readme_error_none, readable_regular in E. destruct E as [s Hs].
    exists s. split; [exact Hs|].
    rewrite (setup_calls_readable e s Hs) in Hin.
    destruct Hin as [<-|[]]. reflexivity.
Qed.

(* ------------------------------------------------------------------ *)
(** ** The fields of the manifest *)

(** C4: each of the required fields name, version, license and author of a
    manifest passed to [setup] is a non-empty string. *)
Theorem required_fields_nonempty (e : env) (kw : kwargs) :
  In kw (setup_calls (trace e)) ->
  name kw <> "" /\ version kw <> "" /\ license kw <> "" /\ author kw <> "".
Proof.
  intros Hin. apply setup_calls_inv in Hin. destruct Hin as (s & _ & ->).
  cbn. repeat split; discriminate.
Qed.

Lemma required_fields_nonempty_witness :
  In sample_manifest (setup_calls (trace (in_checkout (Regular "# pyCroscopy")))) /\
  (name sample_manifest <> "" /\ version sample_manifest <> "" /\ license sample_manifest <> "" /\ author sample_manifest <> "").
Proof.
  assert (H : In sample_manifest (setup_calls (trace (in_checkout (Regular "# pyCroscopy"))))).
  { vm_compute. left. reflexivity. }
  split; [exact H | exact (required_fields_nonempty _ _ H)].
Defined.

(** C7: the license of a manifest passed to [setup] is the string [MIT]; its
    version is the string [0.0a1], whose pre-release segment [a1] marks the
    first alpha of release 0.0, and the classifiers place the project in the
    pre-alpha development status. *)
Theorem license_and_version_marker (e : env) (kw : kwargs) :
  In kw (setup_calls (trace e)) ->
  license kw = "MIT" /\
  version kw = "0.0a1" /\
  version_scheme.pre_release (version kw) = Some (version_scheme.Alpha, "1") /\
  In "Development Status :: 2 - Pre-Alpha" (classifiers kw).
Proof.
  intros Hin. apply setup_calls_inv in Hin. destruct Hin as (s & _ & ->).
  cbn. repeat split. now left.
Qed.

Lemma license_and_version_marker_witness :
  In sample_manifest (setup_calls (trace (in_checkout (Regular "# pyCroscopy")))) /\
  (license sample_manifest = "MIT" /\
  version sample_manifest = "0.0a1" /\
  version_scheme.pre_release (version sample_manifest) = Some (version_scheme.Alpha, "1") /\
  In "Development Status :: 2 - Pre-Alpha" (classifiers sample_manifest)).
Proof.
  assert (H : In sample_manifest (setup_calls (trace (in_checkout (Regular "# pyCroscopy"))))).
  { vm_compute. left. reflexivity. }
  split; [exact H | exact (license_and_version_marker _ _ H)].
Defined.

(** C2: the values passed to [setup] for [install_requires] and
    [dependency_links] declare no dependency: every entry of either list is
    the empty string, so neither yields a line to the requirement parser or
    to the reader of the dependency links. *)
Theorem no_dependency_declared (e : env) (kw : kwargs) :
  In kw (setup_calls (trace e)) ->
  (forall r, In r (install_requires kw) -> r = "") /\
  (forall l, In l (dependency_links kw) -> l = "") /\
  pkg_resources.yield_lines (install_requires kw) = [] /\
  pkg_resources.yield_lines (dependency_links kw) = [].
Proof.
  intros Hin. apply setup_calls_inv in Hin. destruct Hin as (s & _ & ->).
  cbn. repeat split; intros ? [<-|[]]; reflexivity.
Qed.

Lemma no_dependency_declared_witness :
  In sample_manifest (setup_calls (trace (in_checkout (Regular "# pyCroscopy")))) /\
  ((forall r, In r (install_requires sample_manifest) -> r = "") /\
  (forall l, In l (dependency_links sample_manifest) -> l = "") /\
  pkg_resources.yield_lines (install_requires sample_manifest) = [] /\
  pkg_resources.yield_lines (dependency_links sample_manifest) = []).
Proof.
  assert (H : In sample_manifest (setup_calls (trace (in_checkout (Regular "# pyCroscopy"))))).
  { vm_compute. left. reflexivity. }
  split; [exact H | exact (no_dependency_declared _ _ H)].
Defined.

(* ------------------------------------------------------------------ *)
(** ** The README and the long description *)

(** C6: when the README holds the text [s], [setup] is called once, and the
    [long_description] it is given is exactly [s]. *)
Theorem long_description_is_readme (e : env) (s : string) :
  files e (readme_path e) = Regular s ->
  map long_description (setup_calls (trace e)) = [s].
Proof.
  intros H. rewrite (setup_calls_readable e s H). reflexivity.
Qed.

Lemma long_description_is_readme_witness :
  map long_description (setup_calls (trace (in_checkout (Regular "# pyCroscopy")))) =
  ["# pyCroscopy"].
Proof.
  apply (long_description_is_readme (in_checkout (Regular "# pyCroscopy"))).
  reflexivity.
Defined.

(** C5: two runs that find the README in the same state pass the same
    [long_description] to [setup] (and neither calls [setup] when the README
    cannot be read). *)
Theorem long_description_deterministic (e1 e2 : env) :
  files e1 (readme_path e1) = files e2 (readme_path e2) ->
  map long_description (setup_calls (trace e1)) =
  map long_description (setup_calls (trace e2)).
Proof.
  intros H.
  destruct (readme_error (readme_path e1) (files e1 (readme_path e1))) as [x|] eqn:E.
  - assert (E2 : exists y, readme_error (readme_path e2) (files e2 (readme_path e2)) = Some y).
    { rewrite <- H. destruct (files e1 (readme_path e1)); cbn in *;
        try discriminate; eexists; reflexivity. }
    destruct E2 as [y E2].
    apply run_not_readable in E. apply run_not_readable in E2.
    destruct E as (_ & -> & _). destruct E2 as (_ & -> & _). reflexivity.
  - apply readme_error_none, readable_regular in E. destruct E as [s Hs].
    rewrite (setup_calls_readable e1 s Hs).
    rewrite H in Hs. now rewrite (setup_calls_readable e2 s Hs).
Qed.

Lemma long_description_deterministic_witness :
  map long_description (setup_calls (trace (in_checkout (Regular "# pyCroscopy")))) =
  map long_description (setup_calls (trace (from_above (Regular "# pyCroscopy")))).
Proof.
  apply (long_description_deterministic (in_checkout (Regular "# pyCroscopy"))
                                        (from_above (Regular "# pyCroscopy"))).
  reflexivity.
Defined.

(* ------------------------------------------------------------------ *)
(** ** Failure *)

Lemma outcome_readable (e : env) (s : string) :
  files e (readme_path e) = Regular s -> outcome e = inr tt.
Proof. intros H. unfold outcome. now rewrite (run_readable e s H). Qed.

Lemma readme_error_some (p : string) (st : file_state) :
  readable st = false -> exists x, readme_error p st = Some x.
Proof. destruct st; cbn; intros H; try discriminate; eexists; reflexivity. Qed.

Lemma readme_error_file_access (p : string) (st : file_state) (x : exn) :
  readme_error p st = Some x ->
  exists code, x = IOError code (Some p) \/ x = IOError code None.
Proof.
  destruct st; cbn; intros H; inversion H; eexists; (left; reflexivity) || (right; reflexivity).
Qed.

(** C3: a run ends with an exception exactly when the README at the path
    the script computes is not a file that can be opened and read; the
    exception is then an [IOError], carrying the README path when it comes
    from [open]. *)
Theorem fails_iff_readme_unreadable (e : env) :
  ((exists x, outcome e = inl x) <-> readable (files e (readme_path e)) = false) /\
  (forall x, outcome e = inl x ->
     exists code, x = IOError code (Some (readme_path e)) \/ x = IOError code None).
Proof.
  destruct (readable (files e (readme_path e))) eqn:R.
  - apply readable_regular in R. destruct R as [s Hs].
    pose proof (outcome_readable e s Hs) as Ho.
    split.
    + split; [intros [x Hx]; congruence | discriminate].
    + intros x Hx. congruence.
  - destruct (readme_error_some (readme_path e) _ R) as [y Hy].
    pose proof (run_not_readable e y Hy) as (Ho & _).
    split.
    + split; [reflexivity | intros _; now exists y].
    + intros x Hx. rewrite Ho in Hx. inversion Hx; subst.
      now apply readme_error_file_access with (st := files e (readme_path e)).
Qed.

Lemma fails_iff_readme_unreadable_witness :
  readable (files (in_checkout Missing) (readme_path (in_checkout Missing))) = false /\
  exists x, outcome (in_checkout Missing) = inl x.
Proof.
  split; [reflexivity|].
  apply (proj1 (fails_iff_readme_unreadable (in_checkout Missing))).
  reflexivity.
Defined.

(** C9: a run that ends with an exception has not called [setup], nor
    searched for packages; and in every run [setup] is called only after the
    README has been opened and closed again. *)
Theorem no_setup_on_error (e : env) :
  (forall x, outcome e = inl x ->
     setup_calls (trace e) = [] /\ forall pk, ~ In (FoundPackages pk) (trace e)) /\
  (forall tr1 kw tr2, trace e = (tr1 ++ SetupCalled kw :: tr2)%list ->
     exists tr0 tr1', tr1 = (Opened (readme_path e) :: tr0 ++ Closed (readme_path e) :: tr1')%list).
Proof.
  destruct (readme_error (readme_path e) (files e (readme_path e))) as [y|] eqn:E.
  - pose proof (run_not_readable e y E) as (Ho & Hs & Hf).
    split.
    + intros x _. split; assumption.
    + intros tr1 kw tr2 Htr.
      assert (Hin : In kw (setup_calls (trace e))).
      { rewrite Htr. clear. induction tr1 as [|ev tr1 IH]; cbn.
        - now left.
        - destruct ev; cbn; auto. }
      rewrite Hs in Hin. destruct Hin.
  - apply readme_error_none, readable_regular in E. destruct E as [s Hs].
    split.
    + intros x Hx. rewrite (outcome_readable e s Hs) in Hx. discriminate.
    + intros tr1 kw tr2. unfold trace. rewrite (run_readable e s Hs). cbn.
      intros Htr.
      destruct tr1 as [|a [|b [|c [|d tr1]]]]; cbn in Htr; try discriminate.
      * inversion Htr; subst. exists [], [FoundPackages
          (setuptools.find_packages (listing e) (setuptools.PyStr "tests")
                                    (setuptools.PyList ["*"]))].
        reflexivity.
      * inversion Htr. destruct tr1; discriminate.
Qed.

Lemma no_setup_on_error_witness :
  setup_calls (trace (in_checkout Unreadable)) = [] /\
  forall pk, ~ In (FoundPackages pk) (trace (in_checkout Unreadable)).
Proof.
  exact (proj1 (no_setup_on_error (in_checkout Unreadable)) (IOError EIO None) eq_refl).
Defined.

(* ------------------------------------------------------------------ *)
(** ** What depends on what *)

(** C10, as written, fails: [packages] is computed from the directory tree,
    so two runs with one and the same README over different trees pass
    different manifests. *)
Lemma readme_only_claim_fails : ~ readme_only_claim.
Proof.
  intros H.
  specialize (H (run_in checkout (Regular "# pyCroscopy"))
                (run_in early_checkout (Regular "# pyCroscopy"))
                (manifest "# pyCroscopy" ["pycroscopy"; "tests"; "pycroscopy.io"])
                (manifest "# pyCroscopy" ["pycroscopy"])
                eq_refl eq_refl).
  assert (H' : same_but_long_description
                 (manifest "# pyCroscopy" ["pycroscopy"; "tests"; "pycroscopy.io"])
                 (manifest "# pyCroscopy" ["pycroscopy"])).
  { apply H; vm_compute; left; reflexivity. }
  unfold same_but_long_description in H'. cbn in H'. discriminate H'.
Qed.

(** C10, amended: every field other than [long_description] and [packages]
    is the same constant in all runs; [packages] is what [find_packages]
    computes from the directory tree, whatever the README holds; so two
    runs over the same tree pass manifests that differ in [long_description]
    at most. *)
Theorem fields_independent_of_readme (e1 e2 : env) (kw1 kw2 : kwargs) :
  In kw1 (setup_calls (trace e1)) ->
  In kw2 (setup_calls (trace e2)) ->
  with_packages [] (with_long_description "" kw1) =
    with_packages [] (with_long_description "" kw2) /\
  packages kw1 = setuptools.find_packages (listing e1) (setuptools.PyStr "tests")
                                          (setuptools.PyList ["*"]) /\
  (listing e1 = listing e2 -> same_but_long_description kw1 kw2).
Proof.
  intros H1 H2.
  apply setup_calls_inv in H1. destruct H1 as (s1 & _ & ->).
  apply setup_calls_inv in H2. destruct H2 as (s2 & _ & ->).
  repeat split.
  intros Hl. unfold same_but_long_description. cbn. now rewrite Hl.
Qed.

Lemma fields_independent_of_readme_witness :
  In (manifest "# pyCroscopy" ["pycroscopy"; "tests"; "pycroscopy.io"])
     (setup_calls (trace (run_in checkout (Regular "# pyCroscopy")))) /\
  In (manifest "pyCroscopy, second edition" ["pycroscopy"; "tests"; "pycroscopy.io"])
     (setup_calls (trace (run_in checkout (Regular "pyCroscopy, second edition")))) /\
  same_but_long_description
    (manifest "# pyCroscopy" ["pycroscopy"; "tests"; "pycroscopy.io"])
    (manifest "pyCroscopy, second edition" ["pycroscopy"; "tests"; "pycroscopy.io"]).
Proof.
  assert (H1 : In (manifest "# pyCroscopy" ["pycroscopy"; "tests"; "pycroscopy.io"])
                  (setup_calls (trace (run_in checkout (Regular "# pyCroscopy"))))).
  { vm_compute. left. reflexivity. }
  assert (H2 : In (manifest "pyCroscopy, second edition" ["pycroscopy"; "tests"; "pycroscopy.io"])
                  (setup_calls (trace (run_in checkout (Regular "pyCroscopy, second edition"))))).
  { vm_compute. left. reflexivity. }
  split; [exact H1 | split; [exact H2 |]].
  exact (proj2 (proj2 (fields_independent_of_readme _ _ _ _ H1 H2)) eq_refl).
Defined.

(* ------------------------------------------------------------------ *)
(** ** The packages *)

(** With the string ['tests'] as [exclude], the patterns are its letters:
    a package named [tests] passes the filter. *)
Lemma str_tests_keeps_tests (tree : list setuptools.node) :
  In "tests" (setuptools.all_packages tree) ->
  In "tests" (setuptools.find_packages tree (setuptools.PyStr "tests")
                                       (setuptools.PyList ["*"])).
Proof.
  intros H. unfold setuptools.find_packages.
  apply filter_In. split; [|reflexivity].
  apply filter_In. split; [exact H | reflexivity].
Qed.

(** With the list [['tests']] as [exclude], the pattern is the name: no
    package named [tests] passes. *)
Lemma list_tests_drops_tests (tree : list setuptools.node) :
  ~ In "tests" (setuptools.find_packages tree (setuptools.PyList ["tests"])
                                         (setuptools.PyList ["*"])).
Proof.
  unfold setuptools.find_packages. intros H.
  apply filter_In in H. destruct H as [_ H]. discriminate H.
Qed.

(** C1 fails on the code: in a checkout with a [tests] package the script
    runs to its end and the [packages] it passes to [setup], in the order of
    the walk, list [tests]; with the list [['tests']] as [exclude] the same
    search leaves it out. *)
Theorem tests_package_is_listed :
  setup_calls (trace (in_checkout (Regular "# pyCroscopy"))) =
    [manifest "# pyCroscopy" ["pycroscopy"; "tests"; "pycroscopy.io"]] /\
  In "tests" (setuptools.find_packages checkout (setuptools.PyStr "tests")
                                       (setuptools.PyList ["*"])) /\
  ~ In "tests" (setuptools.find_packages checkout (setuptools.PyList ["tests"])
                                         (setuptools.PyList ["*"])).
Proof.
  split; [reflexivity|]. split.
  - apply str_tests_keeps_tests. vm_compute. tauto.
  - apply list_tests_drops_tests.
Qed.


(* ------------------------------------------------------------------ *)
(** ** Where the README is looked for *)

Lemma readme_path_beside (e : env) :
  names_a_file (script_file e) = true ->
  readme_path e = readme_beside (script_location e).
Proof.
  intros H. unfold readme_path, readme_beside, here, script_location.
  now rewrite (PathFacts.abspath_dirname (getcwd e) (script_file e) H).
Qed.

(** The files a run opens, by the state of the README. *)
Lemma opened_files_run (e : env) :
  opened_files (trace e) =
    match files e (readme_path e) with
    | Missing | Denied | IsDirectory => []
    | Unreadable | Regular _ => [readme_path e]
    end.
Proof.
  unfold trace, run, script, bind, ask, abspath, ret, with_as, open, bind, ask.
  fold (here e). fold (readme_path e).
  destruct (files e (readme_path e)); reflexivity.
Qed.

(** The condition on [__file__] cannot be dropped: a path that ends in
    [..] and one that ends in [.] can normalize to the same location and
    still have different directories. *)
Remark directory_needs_a_file_name :
  path.abspath "/srv" "pkg/.." = path.abspath "/srv" "." /\
  path.abspath "/srv" (path.dirname "pkg/..") <> path.abspath "/srv" (path.dirname ".").
Proof. split; [reflexivity | discriminate]. Qed.

(** C8: the README is looked for beside the script, wherever the run is
    started: two runs whose script is at the same absolute location, and
    that find the README beside it in the same state, compute the same
    README path, open the same file and pass the same [long_description]. *)
Theorem readme_resolved_from_script_location (e1 e2 : env) :
  names_a_file (script_file e1) = true ->
  names_a_file (script_file e2) = true ->
  script_location e1 = script_location e2 ->
  files e1 (readme_beside (script_location e1)) =
    files e2 (readme_beside (script_location e1)) ->
  readme_path e1 = readme_beside (script_location e1) /\
  readme_path e2 = readme_path e1 /\
  opened_files (trace e1) = opened_files (trace e2) /\
  map long_description (setup_calls (trace e1)) =
    map long_description (setup_calls (trace e2)).
Proof.
  intros H1 H2 Hloc Hfiles.
  pose proof (readme_path_beside e1 H1) as P1.
  pose proof (readme_path_beside e2 H2) as P2.
  rewrite <- Hloc in P2.
  assert (F : files e1 (readme_path e1) = files e2 (readme_path e2))
    by (rewrite P1, P2; exact Hfiles).
  split; [exact P1|]. split; [congruence|]. split.
  - rewrite !opened_files_run, <- F, P1, P2. reflexivity.
  - destruct (readme_error (readme_path e1) (files e1 (readme_path e1))) as [x|] eqn:E.
    + assert (E2 : exists y, readme_error (readme_path e2) (files e2 (readme_path e2)) = Some y).
      { rewrite <- F. destruct (files e1 (readme_path e1)); cbn in *;
          try discriminate; eexists; reflexivity. }
      destruct E2 as [y E2].
      apply run_not_readable in E. apply run_not_readable in E2.
      destruct E as (_ & -> & _). destruct E2 as (_ & -> & _). reflexivity.
    + apply readme_error_none, readable_regular in E. destruct E as [s Hs].
      rewrite (setup_calls_readable e1 s Hs).
      rewrite F in Hs. now rewrite (setup_calls_readable e2 s Hs).
Qed.

Lemma readme_resolved_from_script_location_witness :
  script_location (in_checkout (Regular "# pyCroscopy")) =
    script_location (from_above (Regular "# pyCroscopy")) /\
  getcwd (in_checkout (Regular "# pyCroscopy")) <>
    getcwd (from_above (Regular "# pyCroscopy")) /\
  readme_path (from_above (Regular "# pyCroscopy")) =
    readme_path (in_checkout (Regular "# pyCroscopy")) /\
  opened_files (trace (in_checkout (Regular "# pyCroscopy"))) =
    opened_files (trace (from_above (Regular "# pyCroscopy"))).
Proof.
  split; [reflexivity|]. split; [discriminate|].
  pose proof (readme_resolved_from_script_location
                (in_checkout (Regular "# pyCroscopy"))
                (from_above (Regular "# pyCroscopy"))
                eq_refl eq_refl eq_refl eq_refl) as (_ & H2 & H3 & _).
  split; assumption.
Defined.

(* ------------------------------------------------------------------ *)
(** ** Further properties: the directory of the script *)

Module HereFacts.
Import Str StrFacts path PathShape PathFacts.

Lemma rstrip_empty (c : ascii) (s : string) :
  rstrip c s = "" -> all_char c s = true.
Proof.
  induction s as [|d r IH]; cbn; [reflexivity|].
  destruct (rstrip c r) eqn:E; [|discriminate].
  destruct (Ascii.eqb d c); [intros _; now apply IH | discriminate].
Qed.

Lemma upto_last_head (c d : ascii) (r : string) :
  upto_last c (String d r) = "" \/ exists h, upto_last c (String d r) = String d h.
Proof.
  cbn. destruct (upto_last c r); [|right; eauto].
  destruct (Ascii.eqb d c); [right; eauto | now left].
Qed.

Lemma rstrip_head (c d : ascii) (r : string) :
  rstrip c (String d r) = "" \/ exists h, rstrip c (String d r) = String d h.
Proof.
  cbn. destruct (rstrip c r); [|right; eauto].
  destruct (Ascii.eqb d c); [now left | right; eauto].
Qed.

(** The directory of an absolute path is absolute. *)
Lemma isabs_dirname (f : string) : isabs f = true -> isabs (dirname f) = true.
Proof.
  destruct f as [|d r]; [discriminate|]. unfold isabs. cbn [startswith_char].
  intros Hd. unfold dirname.
  destruct (upto_last_head sep d r) as [E | [h E]].
  - exfalso. apply upto_last_empty in E. cbn in E. rewrite Hd in E. discriminate.
  - rewrite E. cbn [is_empty negb andb].
    destruct (all_char sep (String d h)) eqn:Hall; cbn [negb].
    + cbn. exact Hd.
    + destruct (rstrip_head sep d h) as [R | [h' R]].
      * apply rstrip_empty in R. congruence.
      * rewrite R. cbn. exact Hd.
Qed.

Lemma normpath_trailing_sep (p : string) :
  all_char sep p = false -> normpath (p ++ String sep "") = normpath p.
Proof.
  intros Hp. rewrite !normpath_render.
  rewrite (initial_slashes_app_not_all p _ Hp).
  unfold norm_comps. rewrite (initial_slashes_app_not_all p _ Hp).
  now rewrite split_app_sep, fold_left_app.
Qed.

Lemma endswith_all_char (p : string) :
  p <> "" -> all_char sep p = true -> endswith_char sep p = true.
Proof.
  induction p as [|d r IH]; [congruence|]. intros _ H. cbn in H.
  apply andb_true_iff in H. destruct H as [Hd Hr].
  destruct r as [|d' r']; [exact Hd|].
  change (endswith_char sep (String d' r') = true). apply IH; [discriminate | exact Hr].
Qed.

Lemma normpath_join_prefix (cwd : string) :
  normpath (join_prefix cwd) = normpath cwd.
Proof.
  unfold join_prefix.
  destruct (is_empty cwd || endswith_char sep cwd) eqn:E; [reflexivity|].
  apply orb_false_iff in E. destruct E as [E1 E2].
  apply normpath_trailing_sep.
  destruct (all_char sep cwd) eqn:Hall; [|reflexivity].
  rewrite endswith_all_char in E2; [discriminate | | exact Hall].
  destruct cwd; [discriminate | discriminate].
Qed.

End HereFacts.

(** X5: when [__file__] is absolute, the working directory is not
    consulted: the script directory is the normalized directory part of
    [__file__]. *)
Theorem here_of_absolute_file (e : env) :
  path.isabs (script_file e) = true ->
  here e = path.normpath (path.dirname (script_file e)) /\
  readme_path e = path.join (path.normpath (path.dirname (script_file e))) "README.md".
Proof.
  intros H. unfold readme_path, here, path.abspath.
  now rewrite (HereFacts.isabs_dirname _ H).
Qed.

Lemma here_of_absolute_file_witness :
  here (mk_env "/srv/build/pyCroscopy/setup.py" "/tmp" (fun _ => Missing) []) =
    "/srv/build/pyCroscopy" /\
  readme_path (mk_env "/srv/build/pyCroscopy/setup.py" "/tmp" (fun _ => Missing) []) =
    "/srv/build/pyCroscopy/README.md".
Proof.
  exact (here_of_absolute_file
           (mk_env "/srv/build/pyCroscopy/setup.py" "/tmp" (fun _ => Missing) []) eq_refl).
Defined.

(** X6: when [__file__] is a bare file name (the script is run as
    [python setup.py]), the script directory is the normalized working
    directory, and the README is looked for there. *)
Theorem here_of_bare_file (e : env) :
  Str.contains_char Str.sep (script_file e) = false ->
  here e = path.normpath (getcwd e) /\
  readme_path e = path.join (path.normpath (getcwd e)) "README.md".
Proof.
  intros H.
  assert (Hh : here e = path.normpath (getcwd e)).
  { unfold here, path.abspath, path.dirname.
    rewrite (proj2 (StrFacts.upto_last_empty Str.sep _) H).
    cbn [Str.is_empty negb andb path.isabs Str.startswith_char].
    rewrite PathFacts.join_relative by reflexivity.
    rewrite StrFacts.append_nil_r. apply HereFacts.normpath_join_prefix. }
  split; [exact Hh|]. unfold readme_path. now rewrite Hh.
Qed.

Lemma here_of_bare_file_witness :
  here (in_checkout Missing) = "/home/user/pyCroscopy" /\
  readme_path (in_checkout Missing) = "/home/user/pyCroscopy/README.md".
Proof.
  exact (here_of_bare_file (in_checkout Missing) eq_refl).
Defined.

(* ------------------------------------------------------------------ *)
(** ** Further properties: the shape of the paths the script computes *)

Module CanonicalFacts.
Import Str StrFacts path PathShape PathFacts HereFacts.

Lemma initial_slashes_abs (p : string) :
  isabs p = true -> initial_slashes p = 1 \/ initial_slashes p = 2.
Proof.
  unfold isabs. destruct p as [|a [|b [|c p]]]; cbn [startswith_char];
    intros H; try discriminate; apply Ascii.eqb_eq in H; subst a; unfold sep;
    slashes_cases; auto.
Qed.

Lemma last_In {A} (l : list A) (d : A) : l <> [] -> In (last l d) l.
Proof.
  induction l as [|x l IH]; [congruence|]. intros _.
  destruct l as [|y l]; [now left|].
  right. apply IH. discriminate.
Qed.

Lemma norm_step_names (k : nat) (acc : list string) (c : string) :
  k <> 0 -> Forall is_name acc -> contains_char sep c = false ->
  Forall is_name (norm_step k acc c).
Proof.
  intros Hk Hacc Hc. unfold norm_step.
  destruct (String.eqb_spec c "") as [|N0]; cbn [orb]; [exact Hacc|].
  destruct (String.eqb_spec c ".") as [|N1]; cbn [orb]; [exact Hacc|].
  destruct (String.eqb_spec c "..") as [E2|N2]; cbn [negb orb].
  - apply Nat.eqb_neq in Hk. rewrite Hk. cbn [andb orb].
    destruct acc as [|a l]; [constructor|].
    assert (Hlast : last (a :: l) "" <> "..").
    { pose proof (last_In (a :: l) "" ltac:(discriminate)) as Hin.
      rewrite Forall_forall in Hacc. apply Hacc in Hin. unfold is_name in Hin. tauto. }
    apply String.eqb_neq in Hlast. rewrite Hlast. cbn [andb].
    now apply Forall_removelast.
  - apply Forall_app. split; [exact Hacc|].
    constructor; [|constructor]. unfold is_name. tauto.
Qed.

Lemma norm_fold_names (k : nat) (l acc : list string) :
  k <> 0 ->
  Forall (fun c => contains_char sep c = false) l ->
  Forall is_name acc -> Forall is_name (fold_left (norm_step k) l acc).
Proof.
  intros Hk Hl. revert acc. induction Hl as [|c l Hc Hl IH]; cbn; intros acc Hacc.
  - exact Hacc.
  - apply IH. now apply norm_step_names.
Qed.

Lemma join_prefix_abs (cwd : string) :
  isabs cwd = true -> isabs (join_prefix cwd) = true.
Proof.
  intros H. unfold join_prefix.
  destruct (is_empty cwd || endswith_char sep cwd); [exact H|].
  unfold isabs. rewrite startswith_char_app; [exact H|].
  intros ->. discriminate.
Qed.

Lemma abspath_input_abs (cwd p : string) :
  isabs cwd = true -> isabs (if isabs p then p else join cwd p) = true.
Proof.
  intros Hc. destruct (isabs p) eqn:Hp; [exact Hp|].
  rewrite (join_relative cwd p Hp). unfold isabs.
  pose proof (join_prefix_abs cwd Hc) as Hj.
  rewrite startswith_char_app; [exact Hj|].
  intros E. rewrite E in Hj. discriminate.
Qed.

(** An absolute path, normalized: one or two slashes, then names joined
    by single slashes. *)
Lemma normpath_abs_shape (p : string) :
  isabs p = true ->
  exists k comps, (k = 1 \/ k = 2) /\ Forall is_name comps /\
                  normpath p = repeat_char sep k ++ Str.join sep comps.
Proof.
  intros Hp. exists (initial_slashes p), (norm_comps p).
  pose proof (initial_slashes_abs p Hp) as Hk.
  split; [exact Hk|]. split.
  - apply norm_fold_names; [destruct Hk as [-> | ->]; discriminate | | constructor].
    apply split_all_without.
  - rewrite normpath_render. unfold render. apply or_dot_nonempty.
    destruct Hk as [-> | ->]; cbn; discriminate.
Qed.

Lemma endswith_char_without (c : ascii) (x l : string) :
  l <> "" -> contains_char c l = false -> endswith_char c (x ++ l) = false.
Proof.
  intros Hne Hl.
  assert (Hbase : endswith_char c l = false).
  { clear Hne. induction l as [|d r IH]; [reflexivity|].
    cbn in Hl. apply orb_false_iff in Hl. destruct Hl as [Hd Hr].
    destruct r as [|d' r']; [exact Hd|].
    change (endswith_char c (String d' r') = false). now apply IH. }
  induction x as [|d x IH]; [exact Hbase|].
  cbn [append]. destruct (x ++ l) eqn:E.
  - apply append_eq_nil in E. tauto.
  - exact IH.
Qed.

Lemma is_name_kept (c : string) : is_name c -> kept c.
Proof. unfold is_name, kept. tauto. Qed.

(** What [join] makes of a normalized absolute directory and a name. *)
Lemma join_canonical (k : nat) (comps : list string) (b : string) :
  (k = 1 \/ k = 2) -> Forall is_name comps ->
  startswith_char sep b = false ->
  let d := repeat_char sep k ++ Str.join sep comps in
  (comps = [] /\ join d b = d ++ b) \/
  (comps <> [] /\ join d b = d ++ String sep b).
Proof.
  intros Hk Hc Hb d.
  destruct comps as [|x comps].
  - left. split; [reflexivity|]. unfold d.
    destruct Hk as [-> | ->]; cbn; unfold join; rewrite Hb; reflexivity.
  - right. split; [discriminate|].
    assert (Hkept : Forall kept (x :: comps))
      by (eapply Forall_impl; [apply is_name_kept | exact Hc]).
    destruct (join_kept_last (x :: comps) ltac:(discriminate) Hkept)
      as (a & l & Ha & Hl1 & Hl2).
    unfold join. rewrite Hb.
    assert (He : endswith_char sep d = false).
    { unfold d. rewrite Ha, <- append_assoc. now apply endswith_char_without. }
    assert (Hd : is_empty d = false).
    { unfold d. destruct Hk as [-> | ->]; reflexivity. }
    now rewrite He, Hd.
Qed.

End CanonicalFacts.

(** X3: started from an absolute working directory, the script directory
    is a canonical absolute path: one or two slashes followed by names
    joined by single slashes, where no name is empty, [.] or [..]. *)
Theorem here_is_canonical (e : env) :
  path.isabs (getcwd e) = true ->
  exists k comps,
    (k = 1 \/ k = 2) /\ Forall is_name comps /\
    here e = Str.repeat_char Str.sep k ++ Str.join Str.sep comps.
Proof.
  intros H. unfold here, path.abspath.
  apply CanonicalFacts.normpath_abs_shape.
  now apply CanonicalFacts.abspath_input_abs.
Qed.

Lemma here_is_canonical_witness :
  exists k comps,
    (k = 1 \/ k = 2) /\ Forall is_name comps /\
    here (mk_env "../pyCroscopy/./setup.py" "/home/user/docs" (fun _ => Missing) []) =
      Str.repeat_char Str.sep k ++ Str.join Str.sep comps.
Proof.
  exact (here_is_canonical
           (mk_env "../pyCroscopy/./setup.py" "/home/user/docs" (fun _ => Missing) [])
           eq_refl).
Defined.

(** X2: started from an absolute working directory, the path the script
    opens is absolute and is [README.md] directly inside the script
    directory: the directory, a slash, the name; when the directory is a
    root ([/] or [//]) the name follows it at once. *)
Theorem readme_path_inside_here (e : env) :
  path.isabs (getcwd e) = true ->
  path.isabs (readme_path e) = true /\
  (readme_path e = here e ++ "/README.md" \/
   ((here e = "/" \/ here e = "//") /\ readme_path e = here e ++ "README.md")).
Proof.
  intros H.
  assert (Habs : path.isabs (if path.isabs (path.dirname (script_file e))
                             then path.dirname (script_file e)
                             else path.join (getcwd e) (path.dirname (script_file e))) = true)
    by now apply CanonicalFacts.abspath_input_abs.
  destruct (CanonicalFacts.normpath_abs_shape _ Habs) as (k & comps & Hk & Hc & Hn).
  fold (path.abspath (getcwd e) (path.dirname (script_file e))) in Hn. fold (here e) in Hn.
  unfold readme_path.
  destruct (CanonicalFacts.join_canonical k comps "README.md" Hk Hc eq_refl)
    as [[-> Hj] | [_ Hj]]; rewrite <- Hn in Hj; rewrite Hj.
  - split.
    + rewrite Hn. destruct Hk as [-> | ->]; reflexivity.
    + right. split; [|reflexivity]. rewrite Hn. destruct Hk as [-> | ->]; cbn; auto.
  - split; [|now left].
    rewrite Hn. destruct Hk as [-> | ->]; reflexivity.
Qed.

Lemma readme_path_inside_here_witness :
  path.isabs (readme_path (from_above Missing)) = true /\
  (readme_path (from_above Missing) = here (from_above Missing) ++ "/README.md" \/
   ((here (from_above Missing) = "/" \/ here (from_above Missing) = "//") /\
    readme_path (from_above Missing) = here (from_above Missing) ++ "README.md")).
Proof.
  exact (readme_path_inside_here (from_above Missing) eq_refl).
Defined.

(* ------------------------------------------------------------------ *)
(** ** Further properties: the README file object *)

(** The whole trace of a run, by the state of the README. *)
Lemma trace_by_state (e : env) :
  trace e =
    match files e (readme_path e) with
    | Missing | Denied | IsDirectory => []
    | Unreadable => [Opened (readme_path e); Closed (readme_path e)]
    | Regular s =>
        [Opened (readme_path e); Closed (readme_path e);
         FoundPackages (found_packages e);
         SetupCalled (manifest s (found_packages e))]
    end.
Proof.
  unfold trace, run, script, bind, ask, abspath, ret, with_as, open, bind, ask.
  fold (here e). fold (readme_path e).
  destruct (files e (readme_path e)); reflexivity.
Qed.

(** X1: whenever a run opens a file, the file is the README, it is the
    first thing the run does, and the file is closed at once after the read,
    also when the read fails; no other file is opened afterwards. *)
Theorem opened_file_is_closed (e : env) (tr1 tr2 : list event) (p : string) :
  trace e = (tr1 ++ Opened p :: tr2)%list ->
  p = readme_path e /\ tr1 = [] /\
  exists tr3, tr2 = Closed p :: tr3 /\ opened_files tr3 = [] /\ closed_files tr3 = [].
Proof.
  rewrite trace_by_state.
  destruct (files e (readme_path e)); intros H.
  1-3: destruct tr1; discriminate.
  all: destruct tr1 as [|a [|b [|c [|d [|d' tr1]]]]]; cbn in H; inversion H; subst.
  all: repeat split; eexists; repeat split.
Qed.

Lemma opened_file_is_closed_witness :
  trace (in_checkout Unreadable) =
    ([] ++ Opened "/home/user/pyCroscopy/README.md"
        :: [Closed "/home/user/pyCroscopy/README.md"])%list /\
  exists tr3, [Closed "/home/user/pyCroscopy/README.md"] =
                Closed "/home/user/pyCroscopy/README.md" :: tr3 /\
              opened_files tr3 = [] /\ closed_files tr3 = [].
Proof.
  split; [reflexivity|].
  exact (proj2 (proj2 (opened_file_is_closed (in_checkout Unreadable) []
                         [Closed "/home/user/pyCroscopy/README.md"]
                         "/home/user/pyCroscopy/README.md" eq_refl))).
Defined.

(* ------------------------------------------------------------------ *)
(** ** Further properties: which packages the script lists *)

Module FnmatchFacts.
Import fnmatch.

Lemma match_star_all (name : string) : fnmatchcase name "*" = true.
Proof.
  unfold fnmatchcase. induction name as [|c n IH]; [reflexivity|].
  cbn in *. exact IH.
Qed.

Lemma match_literal_char (c : ascii) (pat name : string) :
  Ascii.eqb c "*" = false -> Ascii.eqb c "?" = false ->
  fnmatchcase_pat (String c pat) name =
    match name with
    | EmptyString => false
    | String d name' => Ascii.eqb c d && fnmatchcase_pat pat name'
    end.
Proof.
  intros H1 H2.
  destruct c as [[] [] [] [] [] [] [] []]; try reflexivity; discriminate.
Qed.

Lemma match_literal (pat : string) :
  literal pat = true -> forall name, fnmatchcase_pat pat name = (pat =? name).
Proof.
  unfold literal. induction pat as [|c pat IH]; intros H name.
  - destruct name; reflexivity.
  - cbn in H. rewrite !negb_orb in H.
    apply andb_true_iff in H. destruct H as [Hs Hq].
    apply andb_true_iff in Hs. destruct Hs as [Hs1 Hs2].
    apply andb_true_iff in Hq. destruct Hq as [Hq1 Hq2].
    apply negb_true_iff in Hs1, Hq1.
    rewrite match_literal_char by assumption.
    destruct name as [|d name]; [reflexivity|].
    rewrite IH by (now rewrite Hs2, Hq2). cbn.
    destruct (Ascii.eqb c d); reflexivity.
Qed.

Lemma match_star_unfold (lit name : string) :
  fnmatchcase_pat (String "*" lit) name =
    fnmatchcase_pat lit name
    || match name with
       | EmptyString => false
       | String _ name' => fnmatchcase_pat (String "*" lit) name'
       end.
Proof. destruct name; reflexivity. Qed.

(** A star before a literal matches the names that end with the literal. *)
Lemma match_star_suffix (lit : string) :
  literal lit = true ->
  forall name, fnmatchcase_pat (String "*" lit) name = true <->
               exists pre, name = pre ++ lit.
Proof.
  intros Hl name. induction name as [|c n IH].
  - rewrite match_star_unfold, orb_false_r, (match_literal lit Hl).
    rewrite String.eqb_eq. split.
    + intros ->. now exists "".
    + intros [pre H]. symmetry in H. apply StrFacts.append_eq_nil in H. tauto.
  - rewrite match_star_unfold, orb_true_iff, (match_literal lit Hl), String.eqb_eq, IH.
    split.
    + intros [-> | [pre ->]]; [now exists "" | now exists (String c pre)].
    + intros [[|d pre] H]; cbn in H; [now left | right].
      inversion H; subst. now exists pre.
Qed.

End FnmatchFacts.

(** The packages kept by [find_packages(exclude='tests')]. *)
Lemma found_packages_spec (e : env) (p : string) :
  In p (found_packages e) <->
  In p (setuptools.all_packages (listing e)) /\
  p <> "ez_setup" /\ (~ exists pre, p = pre ++ "__pycache__") /\
  p <> "t" /\ p <> "e" /\ p <> "s".
Proof.
  unfold found_packages, setuptools.find_packages.
  rewrite !filter_In, negb_true_iff.
  unfold setuptools.build_filter.
  cbn [setuptools.iter Str.chars existsb].
  rewrite FnmatchFacts.match_star_all. cbn [orb].
  rewrite !orb_false_iff. unfold fnmatch.fnmatchcase.
  rewrite (FnmatchFacts.match_literal "ez_setup" eq_refl),
          (FnmatchFacts.match_literal "t" eq_refl),
          (FnmatchFacts.match_literal "e" eq_refl),
          (FnmatchFacts.match_literal "s" eq_refl).
  rewrite !String.eqb_neq.
  pose proof (FnmatchFacts.match_star_suffix "__pycache__" eq_refl p) as Hpy.
  destruct (fnmatch.fnmatchcase_pat "*__pycache__" p).
  - split; [intros [_ (_ & ? & _)]; discriminate|].
    intros (_ & _ & Hn & _). exfalso. apply Hn. now apply Hpy.
  - split.
    + intros ((Hin & _) & H1 & _ & H2 & H3 & H4 & _).
      repeat split; try congruence.
      intros Hex. apply Hpy in Hex. discriminate.
    + intros (Hin & H1 & _ & H2 & H3 & H4).
      repeat split; try congruence.
Qed.

(** X4: the packages a run passes to [setup] are the packages below the
    working directory except those named [ez_setup], those whose name ends
    in [__pycache__], and those named by a single letter of the string
    [tests]: [t], [e] or [s]. *)
Theorem packages_passed_to_setup (e : env) (kw : kwargs) (p : string) :
  In kw (setup_calls (trace e)) ->
  (In p (packages kw) <->
   In p (setuptools.all_packages (listing e)) /\
   p <> "ez_setup" /\ (~ exists pre, p = pre ++ "__pycache__") /\
   p <> "t" /\ p <> "e" /\ p <> "s").
Proof.
  intros Hin. apply setup_calls_inv in Hin. destruct Hin as (s & _ & ->).
  apply found_packages_spec.
Qed.

Lemma packages_passed_to_setup_witness :
  In sample_manifest (setup_calls (trace (in_checkout (Regular "# pyCroscopy")))) /\
  (In "pycroscopy.io" (packages sample_manifest) <->
   In "pycroscopy.io" (setuptools.all_packages (listing (in_checkout (Regular "# pyCroscopy")))) /\
   "pycroscopy.io" <> "ez_setup" /\ (~ exists pre, "pycroscopy.io" = pre ++ "__pycache__") /\
   "pycroscopy.io" <> "t" /\ "pycroscopy.io" <> "e" /\ "pycroscopy.io" <> "s").
Proof.
  assert (H : In sample_manifest (setup_calls (trace (in_checkout (Regular "# pyCroscopy"))))).
  { vm_compute. left. reflexivity. }
  split; [exact H | exact (packages_passed_to_setup _ _ "pycroscopy.io" H)].
Defined.

Lemma top_level_package (tree : list setuptools.node) (d : string)
      (entries : list setuptools.node) :
  In (setuptools.Dir d entries) tree ->
  Str.contains_char "." d = false ->
  setuptools.looks_like_package entries = true ->
  In d (setuptools.all_packages tree).
Proof.
  intros Hin Hdot Hinit. unfold setuptools.all_packages.
  apply in_or_app. left.
  apply in_flat_map. exists (setuptools.Dir d entries). split; [exact Hin|].
  cbn [setuptools.package_name setuptools.is_package]. rewrite Hdot, Hinit.
  cbn [negb andb append]. now left.
Qed.

(** X7: every directory of the working directory whose name has no dot and
    that holds an [__init__.py] is passed to [setup] as a package, unless it
    is named [ez_setup], [t], [e] or [s] or its name ends in [__pycache__];
    so a directory [tests] with an [__init__.py] is always passed. *)
Theorem top_level_directories_listed (e : env) (kw : kwargs) (d : string)
        (entries : list setuptools.node) :
  In kw (setup_calls (trace e)) ->
  In (setuptools.Dir d entries) (listing e) ->
  Str.contains_char "." d = false ->
  setuptools.looks_like_package entries = true ->
  d <> "ez_setup" -> d <> "t" -> d <> "e" -> d <> "s" ->
  (~ exists pre, d = pre ++ "__pycache__") ->
  In d (packages kw).
Proof.
  intros Hkw Hin Hdot Hinit H1 H2 H3 H4 H5.
  apply setup_calls_inv in Hkw. destruct Hkw as (s & _ & ->).
  apply found_packages_spec. repeat split; try assumption.
  now apply top_level_package with (entries := entries).
Qed.

Lemma suffix_length (pre lit s : string) :
  s = pre ++ lit -> String.length lit <= String.length s.
Proof.
  intros ->. induction pre as [|c pre IH]; cbn; [reflexivity | now apply le_S].
Qed.

Lemma top_level_directories_listed_witness :
  In sample_manifest (setup_calls (trace (in_checkout (Regular "# pyCroscopy")))) /\
  In "tests" (packages sample_manifest).
Proof.
  assert (H : In sample_manifest (setup_calls (trace (in_checkout (Regular "# pyCroscopy"))))).
  { vm_compute. left. reflexivity. }
  split; [exact H|].
  apply (top_level_directories_listed (in_checkout (Regular "# pyCroscopy")) sample_manifest
           "tests" [setuptools.File "__init__.py"; setuptools.File "test_io.py"] H).
  - vm_compute. tauto.
  - reflexivity.
  - reflexivity.
  - discriminate.
  - discriminate.
  - discriminate.
  - discriminate.
  - intros [pre Hpre]. apply suffix_length in Hpre. cbn in Hpre. lia.
Defined.
